(** * Verification of the authn core of ldap-group-management

    A shallow embedding of [lib/authn/impl.go]: the token codec
    ([JWTClaims]), the session-cookie manager ([genUserCookieValue],
    [validateUserCookieValue]), the state-token manager
    ([generateValidStateString], [getVerifyReturnStateJWT]), the OAuth2
    callback handler ([oauth2RedirectPathHandler]) and the identity
    resolution entry point ([getRemoteUserName]).

    Go functions that only compute are Rocq functions.  Go functions that
    read the clock, log, write to the [http.ResponseWriter] or call the
    provider run in the monad [M], whose state records the clock readings
    and the ordered trace of observable events, and whose outcome is either
    a returned value or a Go run-time panic.  A Go multiple return
    [(string, error)] is a pair [string * option error], [None] being [nil]. *)

From Stdlib Require Import String Ascii List ZArith Bool Lia.
Import ListNotations.
Local Open Scope string_scope.
Local Open Scope Z_scope.

(** ** Go values *)

(** Go's [error] interface values met in this package: those built with
    [errors.New], and the ones handed back by go-jose, encoding/json and
    net/http. *)
Inductive error : Type :=
| errors_New (msg : string)
| ErrCryptoFailure
| ErrParseJWS (msg : string)
| ErrUnmarshal (msg : string)
| ErrNoCookie
| ErrNet (msg : string).

(** Result of a library call that returns [(T, error)] with a meaningful
    value only when the error is [nil]. *)
Inductive result (A : Type) : Type :=
| Ok (a : A)
| Err (e : error).
Arguments Ok {A} a.
Arguments Err {A} e.

(** [time.Time], kept as nanoseconds since the Unix epoch. *)
Record time_Time : Type := mkTime { unixNano : Z }.

Definition time_Second : Z := 1000000000.
Definition time_Hour : Z := 3600 * time_Second.

(** [t.Unix()] : whole seconds since the epoch, rounded down. *)
Definition Unix (t : time_Time) : Z := unixNano t / time_Second.

(** [t.Add(d)] *)
Definition Add (t : time_Time) (d : Z) : time_Time := mkTime (unixNano t + d).

(** Two's-complement wrap of an [int64] result. *)
Definition wrap64 (z : Z) : Z :=
  (z + 9223372036854775808) mod 18446744073709551616 - 9223372036854775808.

(** [url.Values]: the values of each key, in order. *)
Definition Values : Type := list (string * list string).

(** [v.Get(key)]: first value of [key], or the empty string. *)
Fixpoint Values_Get (v : Values) (key : string) : string :=
  match v with
  | [] => ""
  | (k, vs) :: rest =>
      if String.eqb k key then
        match vs with
        | [] => ""
        | x :: _ => x
        end
      else Values_Get rest key
  end.

(** [strings.Contains(s, "?")] *)
Fixpoint contains_char (c : ascii) (s : string) : bool :=
  match s with
  | EmptyString => false
  | String d r => if Ascii.eqb c d then true else contains_char c r
  end.

(** ** The claim shapes of impl.go *)

Record oauth2StateJWT : Type := mkStateJWT {
  st_Issuer : string;
  st_Subject : string;
  st_Audience : list string;
  st_Expiration : Z;
  st_NotBefore : Z;
  st_IssuedAt : Z;
  st_ReturnURL : string
}.

Record accessToken : Type := mkAccessToken {
  at_AccessToken : string;
  at_TokenType : string;
  at_ExpiresIn : Z;
  at_IDToken : string
}.

Record openidConnectUserInfo : Type := mkUserInfo {
  ui_Subject : string;
  ui_Name : string;
  ui_Login : string;
  ui_Username : string;
  ui_PreferredUsername : string;
  ui_Email : string
}.

Record authNCookieJWT : Type := mkCookieJWT {
  ck_Issuer : string;
  ck_Subject : string;
  ck_Username : string;
  ck_Audience : list string;
  ck_Expiration : Z;
  ck_NotBefore : Z;
  ck_IssuedAt : Z
}.

(** The zero values [oauth2StateJWT{}] and [authNCookieJWT{}]. *)
Definition zero_oauth2StateJWT : oauth2StateJWT := mkStateJWT "" "" [] 0 0 0 "".
Definition zero_authNCookieJWT : authNCookieJWT := mkCookieJWT "" "" "" [] 0 0 0.

Definition cookieExpirationHours : Z := 2.
Definition redirCookieName : string := "redir_cookie".
Definition maxAgeSecondsRedirCookie : Z := 300.

Definition StatusFound : Z := 302.
Definition StatusUnauthorized : Z := 401.
Definition StatusMethodNotAllowed : Z := 405.
Definition StatusInternalServerError : Z := 500.

(** ** The libraries impl.go calls *)

(** Protected header of a JWS. *)
Record Header : Type := mkHeader { alg : string; typ : string }.

(** A parsed compact JWS ([jwt.JSONWebToken]): protected header, payload
    bytes and MAC. *)
Record JSONWebToken : Type := mkJWT {
  protected : Header;
  payload : string;
  signature : string
}.

(** Operations of go-jose, encoding/json and net/url that impl.go relies
    on.  They are parameters of the development; [LibLaws] below states
    what is assumed of them. *)
Class GoLibs : Type := {
  (** HMAC-SHA256 of the signing input (header and payload) under a key *)
  HS256 : string -> Header -> string -> string;
  (** [jose.NewSigner(SigningKey{HS256, key}, opts)]: its error, if any *)
  NewSigner_error : string -> option error;
  (** compact serialization of a JWS and [jwt.ParseSigned] *)
  CompactSerialize : JSONWebToken -> string;
  ParseSigned : string -> result JSONWebToken;
  (** [json.Marshal] / [json.Unmarshal] at the shapes used *)
  Marshal_authNCookieJWT : authNCookieJWT -> string;
  Unmarshal_authNCookieJWT : string -> result authNCookieJWT;
  Marshal_oauth2StateJWT : oauth2StateJWT -> string;
  Unmarshal_oauth2StateJWT : string -> result oauth2StateJWT;
  Unmarshal_accessToken : string -> result accessToken;
  Unmarshal_openidConnectUserInfo : string -> result openidConnectUserInfo;
  (** [url.Values.Encode] *)
  Values_Encode : Values -> string
}.

(** Modelled from the spec: the package constants [AuthCookieName] and
    [Oauth2redirectPath] are declared outside impl.go; the spec only says
    that the cookie name is a fixed constant and that the callback path is
    part of the configuration, so both are parameters. *)
Class PkgConsts : Type := {
  AuthCookieName : string;
  Oauth2redirectPath : string
}.

(** What is assumed of the libraries: HS256 signers can always be built,
    a compact serialization is never the empty string, parsing inverts
    compact serialization, and decoding inverts encoding at the two claim
    shapes (strings being valid text). *)
Record LibLaws (L : GoLibs) : Prop := {
  NewSigner_HS256_ok : forall key, NewSigner_error key = None;
  CompactSerialize_nonempty : forall t, CompactSerialize t <> "";
  ParseSigned_CompactSerialize :
    forall t, ParseSigned (CompactSerialize t) = Ok t;
  Unmarshal_Marshal_authNCookieJWT :
    forall c, Unmarshal_authNCookieJWT (Marshal_authNCookieJWT c) = Ok c;
  Unmarshal_Marshal_oauth2StateJWT :
    forall c, Unmarshal_oauth2StateJWT (Marshal_oauth2StateJWT c) = Ok c
}.

(** ** HTTP values *)

Record Certificate : Type := mkCert { Subject_CommonName : string }.

(** [tls.ConnectionState], reduced to the field impl.go reads. *)
Record ConnectionState : Type := mkTLS {
  VerifiedChains : list (list Certificate)
}.

(** [url.URL], through the two views impl.go takes of it. *)
Record URL : Type := mkURL {
  URL_String : string;
  URL_Query : Values
}.

(** [http.Request] *)
Record Request : Type := mkRequest {
  Method : string;
  Host : string;
  r_URL : URL;
  TLS : option ConnectionState;
  Cookies : list (string * string)
}.

(** [http.Cookie], as built by [setAndStoreAuthCookie]. *)
Record Cookie : Type := mkCookie {
  c_Name : string;
  c_Value : string;
  c_Path : string;
  c_Expires : time_Time;
  c_HttpOnly : bool;
  c_Secure : bool
}.

(** [r.Cookie(name)]: value of the first cookie so named. *)
Fixpoint Request_Cookie (cs : list (string * string)) (name : string)
  : result string :=
  match cs with
  | [] => Err ErrNoCookie
  | (n, v) :: rest => if String.eqb n name then Ok v else Request_Cookie rest name
  end.

(** Outcome of [netClient.PostForm] followed by [ioutil.ReadAll] of the
    body. *)
Inductive PostFormResult : Type :=
| PostFailed (e : error)
| PostResponse (StatusCode : Z) (Body : result string).

(** ** Effects *)

(** What a request handler does that can be observed from outside. *)
Inductive Event : Type :=
| EvLog (format : string)
| EvHttpError (msg : string) (code : Z)
| EvRedirect (url : string) (code : Z)
| EvSetCookie (c : Cookie)
| EvSetHeaders
| EvPostForm (url : string) (data : Values).

(** The environment of one run: [clock n] is what the n-th call of
    [time.Now()] returns, [ticks] counts the calls made so far, [network]
    answers provider calls, [trace] lists the events in the order they
    happened. *)
Record World : Type := mkWorld {
  clock : nat -> time_Time;
  ticks : nat;
  network : string -> Values -> PostFormResult;
  trace : list Event
}.

(** A Go call either returns or panics. *)
Inductive outcome (A : Type) : Type :=
| Done (a : A)
| Panicked (msg : string).
Arguments Done {A} a.
Arguments Panicked {A} msg.

Definition M (A : Type) : Type := World -> outcome A * World.

Definition ret {A : Type} (a : A) : M A := fun w => (Done a, w).

Definition bind {A B : Type} (m : M A) (k : A -> M B) : M B :=
  fun w =>
    match m w with
    | (Done a, w') => k a w'
    | (Panicked msg, w') => (Panicked msg, w')
    end.

Notation "x <- c ;; k" := (bind c (fun x => k))
  (at level 61, c at next level, right associativity).
Notation "c ;;; k" := (bind c (fun _ => k))
  (at level 61, right associativity).

Definition panic {A : Type} (msg : string) : M A := fun w => (Panicked msg, w).

Definition emit (e : Event) : M unit :=
  fun w => (Done tt, mkWorld (clock w) (ticks w) (network w) (trace w ++ [e])).

(** [time.Now()] *)
Definition time_Now : M time_Time :=
  fun w => (Done (clock w (ticks w)),
            mkWorld (clock w) (S (ticks w)) (network w) (trace w)).

(** [logger.Printf] / [log.Printf] / [logger.Println] *)
Definition logPrintf (format : string) : M unit := emit (EvLog format).

Definition http_Error (msg : string) (code : Z) : M unit :=
  emit (EvHttpError msg code).

Definition http_Redirect (url : string) (code : Z) : M unit :=
  emit (EvRedirect url code).

Definition http_SetCookie (c : Cookie) : M unit := emit (EvSetCookie c).

(** [l[0]] on a slice: a run-time panic when the slice is empty. *)
Definition index0 {A : Type} (l : list A) : M A :=
  match l with
  | [] => panic "runtime error: index out of range [0] with length 0"
  | x :: _ => ret x
  end.

(** [len(s) < 1] *)
Definition len_lt_1 (s : string) : bool := Nat.ltb (String.length s) 1.

(** Short-circuit [||] whose right operand has effects. *)
Definition orM (b : bool) (k : M bool) : M bool :=
  if b then ret true else k.

Record OpenIDConfig : Type := mkOpenID {
  AuthURL : string;
  TokenURL : string;
  UserinfoURL : string;
  ClientID : string;
  ClientSecret : string;
  Scopes : string
}.

(** Modelled from the spec: the [Authenticator] type is declared outside
    impl.go.  Its fields are the ones impl.go reads: the ordered secret set,
    the application issuer name, the provider configuration and the
    optional header hook.  The logger and the HTTP client are not fields
    here: log lines are events, and the provider's answers are part of the
    [World]. *)
Record Authenticator : Type := mkAuthenticator {
  sharedSecrets : list string;
  appName : string;
  openID : OpenIDConfig;
  setHeadersFunc : option (M (option error))
}.

(** ** go-jose, as far as impl.go uses it *)

Section Program.
Context {L : GoLibs} {K : PkgConsts}.

(** The signer built by [jose.NewSigner] for HS256 holds the key. *)
Definition NewSigner (key : string) : result string :=
  match NewSigner_error key with
  | Some e => Err e
  | None => Ok key
  end.

(** The header [WithType("JWT")] gives an HS256 signer. *)
Definition jwtHeader : Header := mkHeader "HS256" "JWT".

(** Signing a payload: the MAC of header and payload under the signer's
    key. *)
Definition Sign (sig : string) (body : string) : JSONWebToken :=
  mkJWT jwtHeader body (HS256 sig jwtHeader body).

(** [jwt.Signed(sig).Claims(c).CompactSerialize()] *)
Definition SignedClaimsCompact {C : Type} (marshal : C -> string)
    (sig : string) (c : C) : string * option error :=
  (CompactSerialize (Sign sig (marshal c)), None).

(** Signature check of a JWS under a symmetric key: recompute the MAC
    and compare; the payload is released only on a match.  Only the HS256
    algorithm, the one the signers of this package use, is modelled. *)
Definition Verify (t : JSONWebToken) (key : string) : result string :=
  if String.eqb (HS256 key (protected t) (payload t)) (signature t)
  then Ok (payload t)
  else Err ErrCryptoFailure.

(** [t.Claims(key, dest)]: verify, then decode the payload into the
    destination shape. *)
Definition Claims {C : Type} (unmarshal : string -> result C)
    (t : JSONWebToken) (key : string) : result C :=
  match Verify t key with
  | Err e => Err e
  | Ok b => unmarshal b
  end.

(** ** impl.go *)

Definition genUserCookieValue (a : Authenticator) (username : string)
    (expires : time_Time) : M (string * option error) :=
  s0 <- index0 (sharedSecrets a) ;;
  if len_lt_1 s0 then
    ret ("", Some (errors_New "invalid authenticator state, no shared secrets"))
  else
    let key := s0 in
    match NewSigner key with
    | Err err =>
        logPrintf "New jose signer error err: %s" ;;;
        ret ("", Some err)
    | Ok sig =>
        let issuer := appName a in
        let subject := "state:" ++ AuthCookieName in
        t <- time_Now ;;
        let now := Unix t in
        let stateToken :=
          {| ck_Issuer := issuer;
             ck_Subject := subject;
             ck_Username := username;
             ck_Audience := [issuer];
             ck_NotBefore := now;
             ck_IssuedAt := now;
             ck_Expiration := Unix expires |} in
        ret (SignedClaimsCompact Marshal_authNCookieJWT sig stateToken)
    end.

Definition setAndStoreAuthCookie (s : Authenticator) (username : string)
  : M (option error) :=
  t <- time_Now ;;
  let expires := Add t (time_Hour * cookieExpirationHours) in
  cv <- genUserCookieValue s username expires ;;
  match snd cv with
  | Some err => ret (Some err)
  | None =>
      let userCookie :=
        {| c_Name := AuthCookieName; c_Value := fst cv; c_Path := "/";
           c_Expires := expires; c_HttpOnly := true; c_Secure := true |} in
      http_SetCookie userCookie ;;;
      ret None
  end.

Definition getRedirURL (r : Request) : string :=
  "https://" ++ Host r ++ Oauth2redirectPath.

(** [v.Set(key, value)] *)
Definition Values_Set (v : Values) (key value : string) : Values :=
  (filter (fun kv => negb (String.eqb (fst kv) key)) v ++ [(key, [value])])%list.

Definition generateAuthCodeURL (s : Authenticator) (state : string)
    (r : Request) : string :=
  let redirectURL := getRedirURL r in
  let v : Values :=
    [("response_type", ["code"]);
     ("client_id", [ClientID (openID s)]);
     ("scope", [Scopes (openID s)]);
     ("redirect_uri", [redirectURL])] in
  let v := if negb (String.eqb state "") then Values_Set v "state" state else v in
  AuthURL (openID s)
  ++ (if contains_char "?"%char (AuthURL (openID s)) then "&" else "?")
  ++ Values_Encode v.

Definition generateValidStateString (s : Authenticator) (r : Request)
  : M (string * option error) :=
  s0 <- index0 (sharedSecrets s) ;;
  if len_lt_1 s0 then
    ret ("", Some (errors_New "invalid authenticator state, no shared secrets"))
  else
    let key := s0 in
    match NewSigner key with
    | Err err =>
        logPrintf "New jose signer error err: %s" ;;;
        ret ("", Some err)
    | Ok sig =>
        let issuer := appName s in
        let subject := "state:" ++ redirCookieName in
        t <- time_Now ;;
        let now := Unix t in
        let stateToken :=
          {| st_Issuer := issuer;
             st_Subject := subject;
             st_Audience := [issuer];
             st_ReturnURL := URL_String (r_URL r);
             st_NotBefore := now;
             st_IssuedAt := now;
             st_Expiration := wrap64 (now + maxAgeSecondsRedirCookie) |} in
        ret (SignedClaimsCompact Marshal_oauth2StateJWT sig stateToken)
    end.

Definition oauth2DoRedirectoToProviderHandler (s : Authenticator)
    (r : Request) : M unit :=
  st <- generateValidStateString s r ;;
  match snd st with
  | Some err =>
      logPrintf "Error from generateValidStateString err: %s\n" ;;;
      http_Error "Internal Error " StatusInternalServerError
  | None =>
      http_Redirect (generateAuthCodeURL s (fst st) r) StatusFound
  end.

(** The loop of [JWTClaims]: [err] is the value of the named result
    [err] on entry to the remaining iterations. *)
Fixpoint JWTClaims_from {C : Type} (unmarshal : string -> result C)
    (keys : list string) (t : JSONWebToken) (err : option error) : result C :=
  match keys with
  | [] =>
      match err with
      | Some e => Err e
      | None => Err (errors_New "No valid key found")
      end
  | key :: rest =>
      match Claims unmarshal t key with
      | Ok c => Ok c
      | Err e => JWTClaims_from unmarshal rest t (Some e)
      end
  end.

(** [JWTClaims]: [Ok c] is a [nil] error with [c] decoded into [dest],
    which both callers pass as a zero value.  What a failed attempt may
    have written into [dest] is not modelled: the callers do not read
    [dest] when the error is not [nil]. *)
Definition JWTClaims {C : Type} (s : Authenticator)
    (unmarshal : string -> result C) (t : JSONWebToken) : result C :=
  JWTClaims_from unmarshal (sharedSecrets s) t None.

Definition getUsernameFromUserinfo (userInfo : openidConnectUserInfo) : string :=
  let username := ui_Username userInfo in
  let username := if len_lt_1 username then ui_Login userInfo else username in
  let username :=
    if len_lt_1 username then ui_PreferredUsername userInfo else username in
  let username := if len_lt_1 username then ui_Email userInfo else username in
  username.

Definition getBytesFromSuccessfullPost (url : string) (data : Values)
  : M (result string) :=
  emit (EvPostForm url data) ;;;
  fun w =>
    match network w url data with
    | PostFailed err => ret (Err err) w
    | PostResponse StatusCode (Err err) => ret (Err err) w
    | PostResponse StatusCode (Ok responseBody) =>
        if StatusCode >=? 300
        then ret (Err (errors_New "invalid status code")) w
        else ret (Ok responseBody) w
    end.

Definition getVerifyReturnStateJWT (s : Authenticator) (r : Request)
  : M (oauth2StateJWT * option error) :=
  let inboundJWT := zero_oauth2StateJWT in
  let serializedState := Values_Get (URL_Query (r_URL r)) "state" in
  if len_lt_1 serializedState then
    ret (inboundJWT, Some (errors_New "null inbound state"))
  else
    match ParseSigned serializedState with
    | Err err => ret (inboundJWT, Some err)
    | Ok tok =>
        match JWTClaims s Unmarshal_oauth2StateJWT tok with
        | Err err => ret (inboundJWT, Some err)
        | Ok inboundJWT =>
            let issuer := appName s in
            let subject := "state:" ++ redirCookieName in
            bad <-
              orM (negb (String.eqb (st_Issuer inboundJWT) issuer))
               (orM (negb (String.eqb (st_Subject inboundJWT) subject))
                 (t1 <- time_Now ;;
                  orM (st_NotBefore inboundJWT >? Unix t1)
                   (t2 <- time_Now ;;
                    ret (st_Expiration inboundJWT <? Unix t2)))) ;;
            if bad then
              ret (inboundJWT, Some (errors_New "invalid JWT values"))
            else ret (inboundJWT, None)
        end
    end.

Definition oauth2RedirectPathHandler (s : Authenticator) (r : Request)
  : M unit :=
  if negb (String.eqb (Method r) "GET") then
    http_Error "Invalid method" StatusMethodNotAllowed
  else
    let authCode := Values_Get (URL_Query (r_URL r)) "code" in
    if len_lt_1 authCode then
      logPrintf "null code" ;;;
      http_Error "null code" StatusUnauthorized
    else
      st <- getVerifyReturnStateJWT s r ;;
      let inboundJWT := fst st in
      match snd st with
      | Some err =>
          logPrintf "error processing state err: %s\n" ;;;
          http_Error "null or bad inboundState" StatusUnauthorized
      | None =>
          let redirectURL := getRedirURL r in
          tokenResp <-
            getBytesFromSuccessfullPost (TokenURL (openID s))
              [("redirect_uri", [redirectURL]);
               ("code", [authCode]);
               ("grant_type", ["authorization_code"]);
               ("client_id", [ClientID (openID s)]);
               ("client_secret", [ClientSecret (openID s)])] ;;
          match tokenResp with
          | Err err =>
              logPrintf "Error getting byes fom post err: %s" ;;;
              http_Error "bad transaction with openic context "
                StatusInternalServerError
          | Ok tokenRespBody =>
              match Unmarshal_accessToken tokenRespBody with
              | Err err =>
                  logPrintf tokenRespBody ;;;
                  http_Error "cannot decode oath2 response for token "
                    StatusInternalServerError
              | Ok oauth2AccessToken =>
                  if negb (String.eqb (at_TokenType oauth2AccessToken) "Bearer")
                     || len_lt_1 (at_AccessToken oauth2AccessToken)
                  then
                    logPrintf "token type invalid token=%s" ;;;
                    http_Error "invalid accessToken " StatusInternalServerError
                  else
                    userInfoResp <-
                      getBytesFromSuccessfullPost (UserinfoURL (openID s))
                        [("access_token", [at_AccessToken oauth2AccessToken])] ;;
                    match userInfoResp with
                    | Err err =>
                        logPrintf "%v" ;;;
                        http_Error "bad transaction with openic context "
                          StatusInternalServerError
                    | Ok userInfoRespBody =>
                        match Unmarshal_openidConnectUserInfo userInfoRespBody with
                        | Err err =>
                            logPrintf "Error unmarshalling userinfo " ;;;
                            http_Error "cannot decode oath2 userinfo token "
                              StatusInternalServerError
                        | Ok userInfo =>
                            let username := getUsernameFromUserinfo userInfo in
                            err <- setAndStoreAuthCookie s username ;;
                            match err with
                            | Some err =>
                                logPrintf "%v" ;;;
                                http_Error "cannot set auth Cookie"
                                  StatusInternalServerError
                            | None =>
                                let destinationPath := st_ReturnURL inboundJWT in
                                http_Redirect destinationPath StatusFound
                            end
                        end
                    end
              end
          end
      end.

Definition validateUserCookieValue (s : Authenticator)
    (remoteCookieValue : string) : M (string * option error) :=
  if len_lt_1 remoteCookieValue then
    logPrintf "Invalid cookie value (too small)" ;;;
    ret ("", None)
  else
    match ParseSigned remoteCookieValue with
    | Err err =>
        logPrintf "Invalid cookie value(jwt) (%s)" ;;;
        ret ("", None)
    | Ok tok =>
        match JWTClaims s Unmarshal_authNCookieJWT tok with
        | Err err =>
            logPrintf "error validating JWT claims err: %s\n" ;;;
            ret ("", None)
        | Ok inboundJWT =>
            let issuer := appName s in
            let subject := "state:" ++ AuthCookieName in
            bad <-
              orM (negb (String.eqb (ck_Issuer inboundJWT) issuer))
               (orM (negb (String.eqb (ck_Subject inboundJWT) subject))
                 (t1 <- time_Now ;;
                  orM (ck_NotBefore inboundJWT >? Unix t1)
                   (t2 <- time_Now ;;
                    ret (ck_Expiration inboundJWT <? Unix t2)))) ;;
            if bad then
              logPrintf "invalid JWT values" ;;;
              ret ("", None)
            else
              let username := ck_Username inboundJWT in
              if len_lt_1 username then
                ret ("", Some (errors_New "bad cookie Vauue state"))
              else ret (ck_Username inboundJWT, None)
        end
    end.

Definition getRemoteUserName (s : Authenticator) (r : Request)
  : M (string * option error) :=
  let viaCookie : M (string * option error) :=
    hdrErr <-
      match setHeadersFunc s with
      | Some setHeaders => setHeaders
      | None => ret None
      end ;;
    match hdrErr with
    | Some err => ret ("", Some err)
    | None =>
        match Request_Cookie (Cookies r) AuthCookieName with
        | Err err =>
            oauth2DoRedirectoToProviderHandler s r ;;;
            ret ("", Some err)
        | Ok remoteCookieValue =>
            v <- validateUserCookieValue s remoteCookieValue ;;
            match snd v with
            | Some err =>
                http_Error "bad transaction with openic context "
                  StatusInternalServerError ;;;
                ret ("", Some err)
            | None =>
                if String.eqb (fst v) "" then
                  logPrintf "invalid Cookie Value" ;;;
                  oauth2DoRedirectoToProviderHandler s r ;;;
                  ret ("", Some (errors_New "Invalid Cookie Value"))
                else ret (fst v, None)
            end
        end
    end in
  match TLS r with
  | Some tls =>
      if (0 <? Z.of_nat (List.length (VerifiedChains tls))) then
        chain0 <- index0 (VerifiedChains tls) ;;
        leaf <- index0 chain0 ;;
        let clientName := Subject_CommonName leaf in
        ret (clientName, None)
      else viaCookie
  | None => viaCookie
  end.

End Program.

(** ** A reference implementation of the libraries

    A small executable instance of [GoLibs]: fields are written
    length-prefixed, so that decoding is unambiguous; the MAC is a keyed
    tag.  It is used to run the program on concrete requests. *)

Module Reference.

Fixpoint unary (n : nat) : string :=
  match n with
  | O => ""
  | S m => String "1" (unary m)
  end.

(** A string field: its length in unary, a colon, the characters. *)
Definition enc_str (s : string) : string :=
  unary (String.length s) ++ String ":" s.

Definition Parser (A : Type) : Type := string -> option (A * string).

Definition pret {A : Type} (a : A) : Parser A := fun s => Some (a, s).

Definition pbind {A B : Type} (p : Parser A) (k : A -> Parser B) : Parser B :=
  fun s =>
    match p s with
    | Some (a, r) => k a r
    | None => None
    end.

Fixpoint dec_len (s : string) : option (nat * string) :=
  match s with
  | EmptyString => None
  | String c r =>
      if Ascii.eqb c "1" then
        match dec_len r with
        | Some (n, r') => Some (S n, r')
        | None => None
        end
      else if Ascii.eqb c ":" then Some (O, r)
      else None
  end.

Fixpoint take_str (n : nat) (s : string) : option (string * string) :=
  match n with
  | O => Some ("", s)
  | S m =>
      match s with
      | EmptyString => None
      | String c r =>
          match take_str m r with
          | Some (a, b) => Some (String c a, b)
          | None => None
          end
      end
  end.

Definition dec_str : Parser string := pbind dec_len take_str.

Fixpoint enc_pos (p : positive) : string :=
  match p with
  | xH => ""
  | xO q => String "0" (enc_pos q)
  | xI q => String "1" (enc_pos q)
  end.

Fixpoint dec_pos (s : string) : option positive :=
  match s with
  | EmptyString => Some xH
  | String c r =>
      match dec_pos r with
      | None => None
      | Some q =>
          if Ascii.eqb c "0" then Some (xO q)
          else if Ascii.eqb c "1" then Some (xI q)
          else None
      end
  end.

Definition enc_Z (z : Z) : string :=
  match z with
  | Z0 => "z"
  | Zpos p => String "p" (enc_pos p)
  | Zneg p => String "n" (enc_pos p)
  end.

Definition dec_Z (s : string) : option Z :=
  match s with
  | EmptyString => None
  | String c r =>
      if Ascii.eqb c "z" then
        match r with
        | EmptyString => Some Z0
        | _ => None
        end
      else if Ascii.eqb c "p" then option_map Zpos (dec_pos r)
      else if Ascii.eqb c "n" then option_map Zneg (dec_pos r)
      else None
  end.

(** An integer field. *)
Definition enc_int (z : Z) : string := enc_str (enc_Z z).

Definition dec_int : Parser Z :=
  pbind dec_str (fun x r =>
    match dec_Z x with
    | Some z => Some (z, r)
    | None => None
    end).

(** A list-of-strings field: the count, then the elements. *)
Fixpoint enc_items (l : list string) : string :=
  match l with
  | [] => ""
  | x :: rest => enc_str x ++ enc_items rest
  end.

Definition enc_list (l : list string) : string :=
  unary (List.length l) ++ String ":" (enc_items l).

Fixpoint dec_items (n : nat) : Parser (list string) :=
  match n with
  | O => pret []
  | S m => pbind dec_str (fun x => pbind (dec_items m) (fun l => pret (x :: l)))
  end.

Definition dec_list : Parser (list string) := pbind dec_len dec_items.

(** A decoder must consume its whole input. *)
Definition complete {A : Type} (p : Parser A) (e : error) (s : string)
  : result A :=
  match p s with
  | Some (a, EmptyString) => Ok a
  | _ => Err e
  end.

Definition enc_cookie (c : authNCookieJWT) : string :=
  enc_str (ck_Issuer c) ++ enc_str (ck_Subject c) ++ enc_str (ck_Username c)
  ++ enc_list (ck_Audience c) ++ enc_int (ck_Expiration c)
  ++ enc_int (ck_NotBefore c) ++ enc_int (ck_IssuedAt c).

Definition dec_cookie : Parser authNCookieJWT :=
  pbind dec_str (fun iss =>
  pbind dec_str (fun sub =>
  pbind dec_str (fun user =>
  pbind dec_list (fun aud =>
  pbind dec_int (fun exp =>
  pbind dec_int (fun nbf =>
  pbind dec_int (fun iat =>
  pret (mkCookieJWT iss sub user aud exp nbf iat)))))))).

Definition enc_state (c : oauth2StateJWT) : string :=
  enc_str (st_Issuer c) ++ enc_str (st_Subject c)
  ++ enc_list (st_Audience c) ++ enc_int (st_Expiration c)
  ++ enc_int (st_NotBefore c) ++ enc_int (st_IssuedAt c)
  ++ enc_str (st_ReturnURL c).

Definition dec_state : Parser oauth2StateJWT :=
  pbind dec_str (fun iss =>
  pbind dec_str (fun sub =>
  pbind dec_list (fun aud =>
  pbind dec_int (fun exp =>
  pbind dec_int (fun nbf =>
  pbind dec_int (fun iat =>
  pbind dec_str (fun url =>
  pret (mkStateJWT iss sub aud exp nbf iat url)))))))).

Definition enc_accessToken (t : accessToken) : string :=
  enc_str (at_AccessToken t) ++ enc_str (at_TokenType t)
  ++ enc_int (at_ExpiresIn t) ++ enc_str (at_IDToken t).

Definition dec_accessToken : Parser accessToken :=
  pbind dec_str (fun tok =>
  pbind dec_str (fun ty =>
  pbind dec_int (fun exp =>
  pbind dec_str (fun id =>
  pret (mkAccessToken tok ty exp id))))).

Definition enc_userInfo (u : openidConnectUserInfo) : string :=
  enc_str (ui_Subject u) ++ enc_str (ui_Name u) ++ enc_str (ui_Login u)
  ++ enc_str (ui_Username u) ++ enc_str (ui_PreferredUsername u)
  ++ enc_str (ui_Email u).

Definition dec_userInfo : Parser openidConnectUserInfo :=
  pbind dec_str (fun sub =>
  pbind dec_str (fun name =>
  pbind dec_str (fun login =>
  pbind dec_str (fun user =>
  pbind dec_str (fun pref =>
  pbind dec_str (fun email =>
  pret (mkUserInfo sub name login user pref email))))))).

Definition enc_jws (t : JSONWebToken) : string :=
  enc_str (alg (protected t)) ++ enc_str (typ (protected t))
  ++ enc_str (payload t) ++ enc_str (signature t).

Definition dec_jws : Parser JSONWebToken :=
  pbind dec_str (fun a =>
  pbind dec_str (fun ty =>
  pbind dec_str (fun body =>
  pbind dec_str (fun mac =>
  pret (mkJWT (mkHeader a ty) body mac))))).

(** A keyed tag over header and payload. *)
Definition mac (key : string) (h : Header) (body : string) : string :=
  enc_str key ++ enc_str (alg h) ++ enc_str (typ h) ++ enc_str body.

Fixpoint encode_values (v : Values) : string :=
  match v with
  | [] => ""
  | (k, vs) :: rest => k ++ "=" ++ String.concat "," vs ++ "&" ++ encode_values rest
  end.

#[export] Instance Libs : GoLibs := {
  HS256 := mac;
  NewSigner_error := fun _ => None;
  CompactSerialize := enc_jws;
  ParseSigned := complete dec_jws (ErrParseJWS "compact JWS format must have three parts");
  Marshal_authNCookieJWT := enc_cookie;
  Unmarshal_authNCookieJWT := complete dec_cookie (ErrUnmarshal "authNCookieJWT");
  Marshal_oauth2StateJWT := enc_state;
  Unmarshal_oauth2StateJWT := complete dec_state (ErrUnmarshal "oauth2StateJWT");
  Unmarshal_accessToken := complete dec_accessToken (ErrUnmarshal "accessToken");
  Unmarshal_openidConnectUserInfo :=
    complete dec_userInfo (ErrUnmarshal "openidConnectUserInfo");
  Values_Encode := encode_values
}.

#[export] Instance Consts : PkgConsts := {
  AuthCookieName := "auth_cookie";
  Oauth2redirectPath := "/oauth2/redirectendpoint"
}.

End Reference.

(** ** Specification-side definitions *)

(** The spec's reading of username derivation: the first non-empty
    entry of a priority list, the empty string when there is none. *)
Fixpoint first_nonempty (l : list string) : string :=
  match l with
  | [] => ""
  | x :: rest => if String.eqb x "" then first_nonempty rest else x
  end.

(** The semantic checks both validators make after the signature check,
    as one predicate on the claims read: issuer and subject as expected,
    and the two clock readings taken by the check inside the closed
    window from not-before to expiration. *)
Definition claimsInWindow (issuer subject : string) (iss sub : string)
    (nbf exp : Z) (w : World) : bool :=
  String.eqb iss issuer && String.eqb sub subject
  && (nbf <=? Unix (clock w (ticks w)))
  && (Unix (clock w (S (ticks w))) <=? exp).

(** The same request carrying other cookies. *)
Definition withCookies (r : Request) (cs : list (string * string)) : Request :=
  mkRequest (Method r) (Host r) (r_URL r) (TLS r) cs.

(** The world after the events [evs] have been appended to its trace. *)
Definition emitted (w : World) (evs : list Event) : World :=
  mkWorld (clock w) (ticks w) (network w) (trace w ++ evs).

(** The events of a trace that are calls to the provider. *)
Definition isPostForm (e : Event) : bool :=
  match e with
  | EvPostForm _ _ => true
  | _ => false
  end.

(** The events of a trace that write to the response. *)
Definition isResponseWrite (e : Event) : bool :=
  match e with
  | EvHttpError _ _ | EvRedirect _ _ | EvSetCookie _ | EvSetHeaders => true
  | _ => false
  end.

(** Advancing the call counter of the clock. *)
Definition tick (n : nat) (w : World) : World :=
  mkWorld (clock w) (n + ticks w) (network w) (trace w).

Section Views.
Context {L : GoLibs} {K : PkgConsts}.

(** What [validateUserCookieValue] returns, as a function of its input
    and of the clock. *)
Definition cookieVerdict (s : Authenticator) (v : string) (w : World)
  : string * option error :=
  if len_lt_1 v then ("", None)
  else
    match ParseSigned v with
    | Err _ => ("", None)
    | Ok tok =>
        match JWTClaims s Unmarshal_authNCookieJWT tok with
        | Err _ => ("", None)
        | Ok c =>
            if claimsInWindow (appName s) ("state:" ++ AuthCookieName)
                 (ck_Issuer c) (ck_Subject c) (ck_NotBefore c)
                 (ck_Expiration c) w
            then
              if len_lt_1 (ck_Username c)
              then ("", Some (errors_New "bad cookie Vauue state"))
              else (ck_Username c, None)
            else ("", None)
        end
    end.

(** What [getVerifyReturnStateJWT] returns. *)
Definition stateVerdict (s : Authenticator) (r : Request) (w : World)
  : oauth2StateJWT * option error :=
  let serializedState := Values_Get (URL_Query (r_URL r)) "state" in
  if len_lt_1 serializedState
  then (zero_oauth2StateJWT, Some (errors_New "null inbound state"))
  else
    match ParseSigned serializedState with
    | Err err => (zero_oauth2StateJWT, Some err)
    | Ok tok =>
        match JWTClaims s Unmarshal_oauth2StateJWT tok with
        | Err err => (zero_oauth2StateJWT, Some err)
        | Ok c =>
            if claimsInWindow (appName s) ("state:" ++ redirCookieName)
                 (st_Issuer c) (st_Subject c) (st_NotBefore c)
                 (st_Expiration c) w
            then (c, None)
            else (c, Some (errors_New "invalid JWT values"))
        end
    end.

(** The claims [genUserCookieValue] signs when the clock is read in
    world [w]. *)
Definition sessionClaims (a : Authenticator) (username : string)
    (expires : time_Time) (w : World) : authNCookieJWT :=
  {| ck_Issuer := appName a;
     ck_Subject := "state:" ++ AuthCookieName;
     ck_Username := username;
     ck_Audience := [appName a];
     ck_NotBefore := Unix (clock w (ticks w));
     ck_IssuedAt := Unix (clock w (ticks w));
     ck_Expiration := Unix expires |}.

(** The claims [generateValidStateString] signs when the clock is read
    in world [w]. *)
Definition stateClaims (s : Authenticator) (r : Request) (w : World)
  : oauth2StateJWT :=
  {| st_Issuer := appName s;
     st_Subject := "state:" ++ redirCookieName;
     st_Audience := [appName s];
     st_ReturnURL := URL_String (r_URL r);
     st_NotBefore := Unix (clock w (ticks w));
     st_IssuedAt := Unix (clock w (ticks w));
     st_Expiration :=
       wrap64 (Unix (clock w (ticks w)) + maxAgeSecondsRedirCookie) |}.

(** The form [oauth2RedirectPathHandler] posts to the token endpoint. *)
Definition tokenRequestForm (s : Authenticator) (r : Request) : Values :=
  [("redirect_uri", [getRedirURL r]);
   ("code", [Values_Get (URL_Query (r_URL r)) "code"]);
   ("grant_type", ["authorization_code"]);
   ("client_id", [ClientID (openID s)]);
   ("client_secret", [ClientSecret (openID s)])].

End Views.

(** ** Concrete runs

    One deployment, over the reference libraries, on which the program is
    run: two secrets (the newer one first), a provider that answers the
    token and userinfo calls, and the requests of one login. *)

Module Scenario.
Import Reference.

Definition openid : OpenIDConfig :=
  {| AuthURL := "https://idp.example/authorize";
     TokenURL := "https://idp.example/token";
     UserinfoURL := "https://idp.example/userinfo";
     ClientID := "smallpoint-client";
     ClientSecret := "client-secret";
     Scopes := "openid email" |}.

Definition auth : Authenticator :=
  {| sharedSecrets := ["k-new"; "k-old"]; appName := "smallpoint";
     openID := openid; setHeadersFunc := None |}.

(** The same deployment before rotation, and with no secret at all. *)
Definition authOld : Authenticator :=
  {| sharedSecrets := ["k-old"]; appName := "smallpoint";
     openID := openid; setHeadersFunc := None |}.

Definition unconfigured : Authenticator :=
  {| sharedSecrets := []; appName := "smallpoint";
     openID := openid; setHeadersFunc := None |}.

Definition emptyFirstSecret : Authenticator :=
  {| sharedSecrets := [""; "k-old"]; appName := "smallpoint";
     openID := openid; setHeadersFunc := None |}.

Definition at_second (n : Z) : time_Time := mkTime (n * time_Second).

(** A provider that knows the user as [u]. *)
Definition provider (u : openidConnectUserInfo) (url : string) (data : Values)
  : PostFormResult :=
  if String.eqb url "https://idp.example/token" then
    PostResponse 200
      (Ok (enc_accessToken (mkAccessToken "tok123" "Bearer" 3600 "")))
  else if String.eqb url "https://idp.example/userinfo" then
    PostResponse 200 (Ok (enc_userInfo u))
  else PostResponse 404 (Ok "").

Definition alice : openidConnectUserInfo :=
  {| ui_Subject := "42"; ui_Name := "Alice"; ui_Login := "";
     ui_Username := "alice"; ui_PreferredUsername := ""; ui_Email := "" |}.

(** A userinfo answer in which all four name fields are empty. *)
Definition nameless : openidConnectUserInfo :=
  {| ui_Subject := "42"; ui_Name := "Alice"; ui_Login := "";
     ui_Username := ""; ui_PreferredUsername := ""; ui_Email := "" |}.

(** A world whose clock stands at second [sec]. *)
Definition world (sec : Z) (u : openidConnectUserInfo) : World :=
  {| clock := fun _ => at_second sec; ticks := 0;
     network := provider u; trace := [] |}.

(** The value a sign operation returned. *)
Definition issued (m : M (string * option error)) (w : World) : string :=
  match fst (m w) with
  | Done (v, _) => v
  | Panicked _ => ""
  end.

(** A session cookie for alice issued at second 1000, expiring at second
    8200. *)
Definition expires : time_Time :=
  Add (at_second 1000) (time_Hour * cookieExpirationHours).

Definition cookie : string :=
  issued (genUserCookieValue auth "alice" expires) (world 1000 alice).

(** The same cookie issued before rotation, under the old secret. *)
Definition cookieOld : string :=
  issued (genUserCookieValue authOld "alice" expires) (world 1000 alice).

(** The first request of a login, and the provider's callback for it. *)
Definition protectedRequest : Request :=
  {| Method := "GET"; Host := "app.example";
     r_URL := mkURL "/protected" []; TLS := None; Cookies := [] |}.

Definition stateString : string :=
  issued (generateValidStateString auth protectedRequest) (world 1000 alice).

Definition callback : Request :=
  {| Method := "GET"; Host := "app.example";
     r_URL := mkURL "/oauth2/redirectendpoint"
                [("code", ["abc"]); ("state", [stateString])];
     TLS := None; Cookies := [] |}.

Definition callbackPost : Request :=
  {| Method := "POST"; Host := "app.example"; r_URL := r_URL callback;
     TLS := None; Cookies := [] |}.

Definition callbackNoCode : Request :=
  {| Method := "GET"; Host := "app.example";
     r_URL := mkURL "/oauth2/redirectendpoint" [("state", [stateString])];
     TLS := None; Cookies := [] |}.

Definition callbackNoState : Request :=
  {| Method := "GET"; Host := "app.example";
     r_URL := mkURL "/oauth2/redirectendpoint" [("code", ["abc"])];
     TLS := None; Cookies := [] |}.

(** A request over TLS whose verified client certificate has an empty
    common name. *)
Definition certRequest : Request :=
  {| Method := "GET"; Host := "app.example";
     r_URL := mkURL "/protected" [];
     TLS := Some (mkTLS [[mkCert ""; mkCert "Example CA"]]);
     Cookies := [("auth_cookie", cookie)] |}.

(** Two tokens no configured secret accepts: one signed with a key that
    is not configured, one signed with the last configured key over a
    payload that does not decode. *)
Definition forged : JSONWebToken :=
  Sign "k-unknown"
    (Marshal_authNCookieJWT
       (sessionClaims auth "alice" expires (world 1000 alice))).

Definition garbled : JSONWebToken := Sign "k-old" "not a claims object".

End Scenario.

(** ** Further readings of a trace *)

(** Log lines. *)
Definition isLog (e : Event) : bool :=
  match e with
  | EvLog _ => true
  | _ => false
  end.

(** The writes that answer the request: an error page or a redirect. *)
Definition isAnswer (e : Event) : bool :=
  match e with
  | EvHttpError _ _ | EvRedirect _ _ => true
  | _ => false
  end.

Definition isSetCookie (e : Event) : bool :=
  match e with
  | EvSetCookie _ => true
  | _ => false
  end.

(** The values an [int64] holds. *)
Definition int64_range (z : Z) : Prop :=
  -9223372036854775808 <= z < 9223372036854775808.

(** Whether the connection of a request carries a verified client
    certificate chain. *)
Definition hasVerifiedChain (r : Request) : bool :=
  match TLS r with
  | Some tls =>
      match VerifiedChains tls with
      | [] => false
      | _ :: _ => true
      end
  | None => false
  end.

(** The same request over another connection. *)
Definition withTLS (r : Request) (t : option ConnectionState) : Request :=
  mkRequest (Method r) (Host r) (r_URL r) t (Cookies r).

(** ** Further concrete requests *)

Module Flow.
Import Reference Scenario.

(** The first request again, now carrying the session cookie. *)
Definition loggedIn : Request :=
  withCookies protectedRequest [("auth_cookie", cookie)].

(** The first request over TLS, the client having shown no certificate. *)
Definition noChainRequest : Request :=
  withTLS protectedRequest (Some (mkTLS [])).

(** A header hook that fails after touching the headers. *)
Definition failingHook : M (option error) :=
  fun w => (Done (Some (errors_New "cannot set headers")),
            emitted w [EvSetHeaders]).

Definition authHook : Authenticator :=
  {| sharedSecrets := ["k-new"; "k-old"]; appName := "smallpoint";
     openID := openid; setHeadersFunc := Some failingHook |}.

(** A correctly signed session cookie that carries no username. *)
Definition namelessCookie : string :=
  issued (genUserCookieValue auth "" expires) (world 1000 alice).


(** The provider's answers to the callback. *)
Definition tokenBody : string :=
  enc_accessToken (mkAccessToken "tok123" "Bearer" 3600 "").

Definition userBody : string := enc_userInfo alice.

End Flow.

(** * Theorems *)

Section Facts.
Context {L : GoLibs} {K : PkgConsts}.

Lemma len_lt_1_true (s : string) : len_lt_1 s = true <-> s = "".
Proof.
  unfold len_lt_1. destruct s as [|c r]; simpl; split; intro H;
    try reflexivity; discriminate.
Qed.

Lemma len_lt_1_false (s : string) : len_lt_1 s = false <-> s <> "".
Proof.
  rewrite <- len_lt_1_true. destruct (len_lt_1 s); split; intro H;
    try reflexivity; try discriminate; try congruence.
Qed.

(** C7. Username derivation precedence: the derived username is the first
    non-empty field in the order username, login, preferred_username,
    email, and the empty string when all four are empty; in particular the
    spec's examples give "bob", "carol" and the empty string. *)
Theorem getUsernameFromUserinfo_precedence :
  (forall u : openidConnectUserInfo,
     getUsernameFromUserinfo u =
     first_nonempty
       [ui_Username u; ui_Login u; ui_PreferredUsername u; ui_Email u])
  /\ getUsernameFromUserinfo
       {| ui_Subject := ""; ui_Name := ""; ui_Username := "";
          ui_Login := "bob"; ui_PreferredUsername := "carol";
          ui_Email := "d@x.com" |} = "bob"
  /\ getUsernameFromUserinfo
       {| ui_Subject := ""; ui_Name := ""; ui_Username := "";
          ui_Login := ""; ui_PreferredUsername := "carol";
          ui_Email := "d@x.com" |} = "carol"
  /\ getUsernameFromUserinfo
       {| ui_Subject := ""; ui_Name := ""; ui_Username := "";
          ui_Login := ""; ui_PreferredUsername := "";
          ui_Email := "" |} = "".
Proof.
  split; [|repeat split; reflexivity].
  intros [sub name login user pref email].
  destruct user, login, pref, email; reflexivity.
Qed.

(** *** The token codec *)

Lemma JWTClaims_from_all_fail {C : Type} (unmarshal : string -> result C)
    (t : JSONWebToken) (keys : list string) (err : option error) :
  (forall k, In k keys -> exists e, Claims unmarshal t k = Err e) ->
  JWTClaims_from unmarshal keys t err =
  match rev keys with
  | [] =>
      match err with
      | Some e => Err e
      | None => Err (errors_New "No valid key found")
      end
  | last :: _ => Claims unmarshal t last
  end.
Proof.
  revert err. induction keys as [|k ks IH]; intros err Hall; simpl.
  - reflexivity.
  - destruct (Hall k (or_introl eq_refl)) as [e He]. rewrite He.
    rewrite IH by (intros k' Hk'; apply Hall; right; exact Hk').
    destruct (rev ks) as [|l ls] eqn:Hrev; simpl.
    + symmetry. exact He.
    + reflexivity.
Qed.

Lemma JWTClaims_from_first_success {C : Type} (unmarshal : string -> result C)
    (t : JSONWebToken) (pre post : list string) (key : string) (c : C)
    (err : option error) :
  (forall k, In k pre -> exists e, Claims unmarshal t k = Err e) ->
  Claims unmarshal t key = Ok c ->
  JWTClaims_from unmarshal (pre ++ key :: post) t err = Ok c.
Proof.
  revert err. induction pre as [|k ks IH]; intros err Hpre Hkey; simpl.
  - rewrite Hkey. reflexivity.
  - destruct (Hpre k (or_introl eq_refl)) as [e He]. rewrite He.
    apply IH; [|exact Hkey]. intros k' Hk'. apply Hpre. right. exact Hk'.
Qed.

(** C4 (amended). [JWTClaims] tries the configured secrets in order and
    succeeds with the claims decoded under the first secret that both
    validates the signature and decodes.  When every secret fails and the
    secret set is not empty, the error returned is the one the library
    gave for the last secret tried; the generic "No valid key found" error
    is returned only when the secret set is empty. *)
Theorem JWTClaims_first_success_else_last_error :
  forall (C : Type) (unmarshal : string -> result C) (s : Authenticator)
         (t : JSONWebToken),
    (forall pre key post c,
        sharedSecrets s = (pre ++ key :: post)%list ->
        (forall k, In k pre -> exists e, Claims unmarshal t k = Err e) ->
        Claims unmarshal t key = Ok c ->
        JWTClaims s unmarshal t = Ok c)
    /\ (forall pre last,
        sharedSecrets s = (pre ++ [last])%list ->
        (forall k, In k (sharedSecrets s) ->
                   exists e, Claims unmarshal t k = Err e) ->
        JWTClaims s unmarshal t = Claims unmarshal t last)
    /\ (sharedSecrets s = [] ->
        JWTClaims s unmarshal t = Err (errors_New "No valid key found")).
Proof.
  intros C unmarshal s t. unfold JWTClaims. repeat split.
  - intros pre key post c Hs Hpre Hkey. rewrite Hs.
    apply JWTClaims_from_first_success; assumption.
  - intros pre last Hs Hall. rewrite JWTClaims_from_all_fail by exact Hall.
    rewrite Hs, rev_app_distr. reflexivity.
  - intros Hs. rewrite Hs. reflexivity.
Qed.

End Facts.

(** *** The reference libraries satisfy the laws *)

Module ReferenceFacts.
Import Reference.

Lemma append_assoc (a b c : string) : (a ++ b) ++ c = a ++ (b ++ c).
Proof. induction a as [|x a IH]; simpl; [reflexivity | now rewrite IH]. Qed.

Lemma dec_len_unary (n : nat) (r : string) :
  dec_len (unary n ++ String ":" r) = Some (n, r).
Proof. induction n as [|n IH]; simpl; [reflexivity | now rewrite IH]. Qed.

Lemma take_str_append (s r : string) :
  take_str (String.length s) (s ++ r) = Some (s, r).
Proof. induction s as [|c s IH]; simpl; [reflexivity | now rewrite IH]. Qed.

Lemma dec_enc_str (s r : string) : dec_str (enc_str s ++ r) = Some (s, r).
Proof.
  unfold dec_str, enc_str, pbind. rewrite append_assoc. simpl.
  rewrite dec_len_unary. apply take_str_append.
Qed.

Lemma dec_enc_pos (p : positive) : dec_pos (enc_pos p) = Some p.
Proof. induction p as [p IH|p IH|]; simpl; [now rewrite IH ..|reflexivity]. Qed.

Lemma dec_enc_Z (z : Z) : dec_Z (enc_Z z) = Some z.
Proof. destruct z as [|p|p]; simpl; [reflexivity | now rewrite dec_enc_pos ..]. Qed.

Lemma dec_enc_int (z : Z) (r : string) : dec_int (enc_int z ++ r) = Some (z, r).
Proof.
  unfold dec_int, enc_int, pbind. rewrite dec_enc_str, dec_enc_Z. reflexivity.
Qed.

Lemma dec_enc_items (l : list string) (r : string) :
  dec_items (List.length l) (enc_items l ++ r) = Some (l, r).
Proof.
  induction l as [|x l IH]; simpl; [reflexivity|].
  unfold pbind at 1. rewrite append_assoc, dec_enc_str.
  unfold pbind at 1. rewrite IH. reflexivity.
Qed.

Lemma dec_enc_list (l : list string) (r : string) :
  dec_list (enc_list l ++ r) = Some (l, r).
Proof.
  unfold dec_list, enc_list, pbind. rewrite append_assoc. simpl.
  rewrite dec_len_unary. apply dec_enc_items.
Qed.

Lemma append_nil_r (s : string) : s ++ "" = s.
Proof. induction s as [|c s IH]; simpl; [reflexivity | now rewrite IH]. Qed.

Ltac dec_fields :=
  repeat first
    [ rewrite dec_enc_str | rewrite dec_enc_int | rewrite dec_enc_list
    | rewrite append_assoc | progress (unfold pbind, pret; simpl) ].

Lemma dec_enc_cookie (c : authNCookieJWT) :
  dec_cookie (enc_cookie c) = Some (c, "").
Proof.
  destruct c. unfold dec_cookie, enc_cookie. simpl.
  rewrite <- (append_nil_r (enc_int ck_IssuedAt0)). dec_fields. reflexivity.
Qed.

Lemma dec_enc_state (c : oauth2StateJWT) :
  dec_state (enc_state c) = Some (c, "").
Proof.
  destruct c. unfold dec_state, enc_state. simpl.
  rewrite <- (append_nil_r (enc_str st_ReturnURL0)). dec_fields. reflexivity.
Qed.

Lemma dec_enc_jws (t : JSONWebToken) : dec_jws (enc_jws t) = Some (t, "").
Proof.
  destruct t as [[a ty] body sig]. unfold dec_jws, enc_jws. simpl.
  rewrite <- (append_nil_r (enc_str sig)). dec_fields. reflexivity.
Qed.

Lemma enc_str_nonempty (s r : string) : enc_str s ++ r <> "".
Proof. unfold enc_str. destruct (String.length s); simpl; discriminate. Qed.

Lemma Libs_laws : LibLaws Reference.Libs.
Proof.
  constructor; simpl.
  - reflexivity.
  - intros t. apply enc_str_nonempty.
  - intros t. unfold complete. rewrite dec_enc_jws. reflexivity.
  - intros c. unfold complete. rewrite dec_enc_cookie. reflexivity.
  - intros c. unfold complete. rewrite dec_enc_state. reflexivity.
Qed.

End ReferenceFacts.

(** *** The semantic checks and the two validators *)

Section Validators.
Context {L : GoLibs} {K : PkgConsts}.

(** The check both validators run is [claimsInWindow] negated; it reads
    the clock at most twice and does nothing else. *)
Lemma window_check_run (issuer subject iss sub : string) (nbf exp : Z)
    (w : World) :
  exists n : nat,
    orM (negb (String.eqb iss issuer))
      (orM (negb (String.eqb sub subject))
        (t1 <- time_Now ;;
         orM (nbf >? Unix t1)
           (t2 <- time_Now ;; ret (exp <? Unix t2)))) w
    = (Done (negb (claimsInWindow issuer subject iss sub nbf exp w)),
       tick n w).
Proof.
  unfold claimsInWindow, orM, bind, time_Now, ret, tick.
  destruct (String.eqb iss issuer); simpl.
  2:{ exists 0%nat. destruct w; reflexivity. }
  destruct (String.eqb sub subject); simpl.
  2:{ exists 0%nat. destruct w; reflexivity. }
  destruct (Z.gtb_spec nbf (Unix (clock w (ticks w)))) as [Hlt|Hle].
  - exists 1%nat. simpl.
    replace (nbf <=? Unix (clock w (ticks w))) with false
      by (symmetry; apply Z.leb_gt; exact Hlt).
    reflexivity.
  - exists 2%nat. simpl.
    replace (nbf <=? Unix (clock w (ticks w))) with true
      by (symmetry; apply Z.leb_le; exact Hle).
    simpl. rewrite Z.leb_antisym, negb_involutive. reflexivity.
Qed.

Lemma validateUserCookieValue_run (s : Authenticator) (v : string)
    (w : World) :
  fst (validateUserCookieValue s v w) = Done (cookieVerdict s v w).
Proof.
  unfold validateUserCookieValue, cookieVerdict.
  destruct (len_lt_1 v); [reflexivity|].
  destruct (ParseSigned v) as [tok|e]; [|reflexivity].
  destruct (JWTClaims s Unmarshal_authNCookieJWT tok) as [c|e]; [|reflexivity].
  unfold bind at 1.
  destruct (window_check_run (appName s) ("state:" ++ AuthCookieName)
              (ck_Issuer c) (ck_Subject c) (ck_NotBefore c)
              (ck_Expiration c) w) as [n Hn].
  rewrite Hn.
  destruct (claimsInWindow _ _ _ _ _ _ w); simpl; [|reflexivity].
  destruct (len_lt_1 (ck_Username c)); reflexivity.
Qed.

Lemma getVerifyReturnStateJWT_run (s : Authenticator) (r : Request)
    (w : World) :
  exists n : nat,
    getVerifyReturnStateJWT s r w = (Done (stateVerdict s r w), tick n w).
Proof.
  unfold getVerifyReturnStateJWT, stateVerdict.
  assert (Hw : tick 0 w = w) by (destruct w; reflexivity).
  destruct (len_lt_1 _); [exists 0%nat; rewrite Hw; reflexivity|].
  destruct (ParseSigned _) as [tok|e]; [|exists 0%nat; rewrite Hw; reflexivity].
  destruct (JWTClaims s Unmarshal_oauth2StateJWT tok) as [c|e];
    [|exists 0%nat; rewrite Hw; reflexivity].
  unfold bind at 1.
  destruct (window_check_run (appName s) ("state:" ++ redirCookieName)
              (st_Issuer c) (st_Subject c) (st_NotBefore c)
              (st_Expiration c) w) as [n Hn].
  rewrite Hn. exists n.
  destruct (claimsInWindow _ _ _ _ _ _ w); reflexivity.
Qed.

End Validators.

(** *** Issuing and validating tokens *)

Section Tokens.
Context {L : GoLibs} {K : PkgConsts}.
Hypothesis laws : LibLaws L.

Lemma NewSigner_ok (key : string) : NewSigner key = Ok key.
Proof. unfold NewSigner. now rewrite (NewSigner_HS256_ok L laws). Qed.

Lemma genUserCookieValue_run (a : Authenticator) (username : string)
    (expires : time_Time) (w : World) (key : string) (rest : list string) :
  sharedSecrets a = key :: rest ->
  key <> "" ->
  genUserCookieValue a username expires w =
  (Done (CompactSerialize
           (Sign key (Marshal_authNCookieJWT
                        (sessionClaims a username expires w))), None),
   tick 1 w).
Proof.
  intros Hs Hk. unfold genUserCookieValue. rewrite Hs. simpl.
  unfold bind at 1. simpl. apply len_lt_1_false in Hk. rewrite Hk.
  rewrite NewSigner_ok. reflexivity.
Qed.

Lemma generateValidStateString_run (s : Authenticator) (r : Request)
    (w : World) (key : string) (rest : list string) :
  sharedSecrets s = key :: rest ->
  key <> "" ->
  generateValidStateString s r w =
  (Done (CompactSerialize
           (Sign key (Marshal_oauth2StateJWT (stateClaims s r w))), None),
   tick 1 w).
Proof.
  intros Hs Hk. unfold generateValidStateString. rewrite Hs. simpl.
  unfold bind at 1. simpl. apply len_lt_1_false in Hk. rewrite Hk.
  rewrite NewSigner_ok. reflexivity.
Qed.

Lemma Verify_Sign (key body : string) : Verify (Sign key body) key = Ok body.
Proof. unfold Verify, Sign. simpl. now rewrite String.eqb_refl. Qed.

(** A token verifies and decodes under any secret set that holds its
    signing key, whatever comes before that key in the set. *)
Lemma JWTClaims_from_signed {C : Type} (unmarshal : string -> result C)
    (key body : string) (c : C) (keys : list string) (err : option error) :
  unmarshal body = Ok c ->
  In key keys ->
  JWTClaims_from unmarshal keys (Sign key body) err = Ok c.
Proof.
  intros Hdec. revert err. induction keys as [|k ks IH]; intros err Hin.
  - destruct Hin.
  - simpl. unfold Claims.
    destruct (Verify (Sign key body) k) as [b|e] eqn:Hv.
    + unfold Verify in Hv. simpl in Hv.
      destruct (String.eqb _ _); [|discriminate].
      injection Hv as <-. rewrite Hdec. reflexivity.
    + apply IH. destruct Hin as [->|Hin]; [|exact Hin].
      rewrite Verify_Sign in Hv. discriminate.
Qed.

Lemma validate_issued (issuer verifier : Authenticator) (username : string)
    (expires : time_Time) (w0 w1 : World) (key : string) :
  username <> "" ->
  appName verifier = appName issuer ->
  In key (sharedSecrets verifier) ->
  Unix (clock w0 (ticks w0)) <= Unix (clock w1 (ticks w1)) ->
  Unix (clock w1 (S (ticks w1))) <= Unix expires ->
  fst (validateUserCookieValue verifier
         (CompactSerialize
            (Sign key (Marshal_authNCookieJWT
                         (sessionClaims issuer username expires w0)))) w1)
  = Done (username, None).
Proof.
  intros Hu Happ Hin Hnbf Hexp.
  rewrite validateUserCookieValue_run. unfold cookieVerdict.
  pose proof (CompactSerialize_nonempty L laws
                (Sign key (Marshal_authNCookieJWT
                             (sessionClaims issuer username expires w0)))) as Hne.
  apply len_lt_1_false in Hne. rewrite Hne.
  rewrite (ParseSigned_CompactSerialize L laws).
  unfold JWTClaims.
  rewrite (JWTClaims_from_signed _ _ _
             (sessionClaims issuer username expires w0));
    [|apply (Unmarshal_Marshal_authNCookieJWT L laws)|exact Hin].
  unfold claimsInWindow. simpl. rewrite Happ, !String.eqb_refl. simpl.
  apply Z.leb_le in Hnbf. apply Z.leb_le in Hexp. rewrite Hnbf, Hexp. simpl.
  apply len_lt_1_false in Hu. rewrite Hu. reflexivity.
Qed.

(** C1. Session-cookie round trip: for a non-empty username and a secret
    set whose first secret is a non-empty key, the cookie value issued by
    [genUserCookieValue], validated by [validateUserCookieValue] at a time
    inside the token's validity window (at or after issue, strictly before
    expiration), gives back exactly that username and a nil error. *)
Theorem session_cookie_round_trip :
  forall (a : Authenticator) (username : string) (expires : time_Time)
         (w0 w1 : World) (key : string) (rest : list string),
    username <> "" ->
    sharedSecrets a = key :: rest ->
    key <> "" ->
    Unix (clock w0 (ticks w0)) <= Unix (clock w1 (ticks w1)) ->
    Unix (clock w1 (S (ticks w1))) < Unix expires ->
    exists (cookie : string) (w0' : World),
      genUserCookieValue a username expires w0 = (Done (cookie, None), w0')
      /\ fst (validateUserCookieValue a cookie w1) = Done (username, None).
Proof.
  intros a username expires w0 w1 key rest Hu Hs Hk Hnbf Hexp.
  eexists. eexists. split.
  - apply (genUserCookieValue_run a username expires w0 key rest Hs Hk).
  - apply validate_issued; try assumption; try reflexivity.
    + rewrite Hs. left. reflexivity.
    + lia.
Qed.

(** C6. Key rotation: a token signed with a secret verifies under every
    secret set that holds that secret, at any position; a session cookie
    issued under one secret set is accepted, inside its validity window, by
    a verifier whose secret set holds the issuing key anywhere; and both
    sign operations use the secret at index 0 of the issuing set. *)
Theorem key_rotation_tolerance :
  (forall (C : Type) (marshal : C -> string) (unmarshal : string -> result C)
          (c : C) (verifier : Authenticator) (key : string),
      unmarshal (marshal c) = Ok c ->
      In key (sharedSecrets verifier) ->
      JWTClaims verifier unmarshal (Sign key (marshal c)) = Ok c)
  /\ (forall (issuer verifier : Authenticator) (username : string)
             (expires : time_Time) (w0 w1 : World) (key : string)
             (rest : list string),
      username <> "" ->
      sharedSecrets issuer = key :: rest ->
      key <> "" ->
      appName verifier = appName issuer ->
      In key (sharedSecrets verifier) ->
      Unix (clock w0 (ticks w0)) <= Unix (clock w1 (ticks w1)) ->
      Unix (clock w1 (S (ticks w1))) < Unix expires ->
      exists (cookie : string) (w0' : World),
        genUserCookieValue issuer username expires w0
        = (Done (cookie, None), w0')
        /\ cookie = CompactSerialize
                      (Sign key (Marshal_authNCookieJWT
                                   (sessionClaims issuer username expires w0)))
        /\ fst (validateUserCookieValue verifier cookie w1)
           = Done (username, None))
  /\ (forall (s : Authenticator) (r : Request) (w : World) (key : string)
             (rest : list string),
      sharedSecrets s = key :: rest ->
      key <> "" ->
      fst (generateValidStateString s r w)
      = Done (CompactSerialize
                (Sign key (Marshal_oauth2StateJWT (stateClaims s r w))), None)).
Proof.
  repeat split.
  - intros C marshal unmarshal c verifier key Hdec Hin. unfold JWTClaims.
    apply JWTClaims_from_signed; assumption.
  - intros issuer verifier username expires w0 w1 key rest
           Hu Hs Hk Happ Hin Hnbf Hexp.
    eexists. eexists. split; [|split].
    + apply (genUserCookieValue_run issuer username expires w0 key rest Hs Hk).
    + reflexivity.
    + apply validate_issued; try assumption. lia.
  - intros s r w key rest Hs Hk.
    rewrite (generateValidStateString_run s r w key rest Hs Hk). reflexivity.
Qed.

End Tokens.

(** *** Outcomes of validation *)

Section Outcomes.
Context {L : GoLibs} {K : PkgConsts}.

Lemma JWTClaims_from_no_signature {C : Type} (unmarshal : string -> result C)
    (t : JSONWebToken) (keys : list string) (err : option error) :
  (forall k, In k keys -> exists e, Verify t k = Err e) ->
  exists e, JWTClaims_from unmarshal keys t err = Err e.
Proof.
  revert err. induction keys as [|k ks IH]; intros err Hall; simpl.
  - destruct err as [e|]; eexists; reflexivity.
  - unfold Claims. destruct (Hall k (or_introl eq_refl)) as [e He].
    rewrite He. apply IH. intros k' Hk'. apply Hall. right. exact Hk'.
Qed.

(** C2. Three-way outcome of cookie validation, case by case.  (a) An
    empty value, a value that does not parse, a token whose signature
    validates under no configured secret, and more generally any token for
    which [JWTClaims] returns an error (so also one that verifies under a
    configured secret but whose payload does not decode) give the empty
    username and a nil error.  (b) A token that verifies and decodes but
    fails the issuer, subject, not-before or expiration check gives the
    empty username and a nil error.  (c) A non-nil error is returned
    exactly when the token verifies, decodes and passes those checks but
    carries an empty username, and it then comes with the empty username.
    (d) In the one remaining case, a token that verifies, decodes, passes
    the checks and carries a non-empty username, that username is returned
    with a nil error. *)
Theorem validateUserCookieValue_three_way :
  forall (s : Authenticator) (v : string) (w : World),
    ((v = ""
      \/ (exists e, ParseSigned v = Err e)
      \/ (exists tok, ParseSigned v = Ok tok
            /\ forall k, In k (sharedSecrets s) ->
                         exists e, Verify tok k = Err e)
      \/ (exists tok e, ParseSigned v = Ok tok
            /\ JWTClaims s Unmarshal_authNCookieJWT tok = Err e)) ->
     fst (validateUserCookieValue s v w) = Done ("", None))
    /\ (forall tok c,
          ParseSigned v = Ok tok ->
          JWTClaims s Unmarshal_authNCookieJWT tok = Ok c ->
          claimsInWindow (appName s) ("state:" ++ AuthCookieName)
            (ck_Issuer c) (ck_Subject c) (ck_NotBefore c)
            (ck_Expiration c) w = false ->
          fst (validateUserCookieValue s v w) = Done ("", None))
    /\ (forall u e,
          fst (validateUserCookieValue s v w) = Done (u, Some e)
          <-> (u = "" /\ e = errors_New "bad cookie Vauue state"
               /\ v <> ""
               /\ exists tok c,
                    ParseSigned v = Ok tok
                    /\ JWTClaims s Unmarshal_authNCookieJWT tok = Ok c
                    /\ claimsInWindow (appName s) ("state:" ++ AuthCookieName)
                         (ck_Issuer c) (ck_Subject c) (ck_NotBefore c)
                         (ck_Expiration c) w = true
                    /\ ck_Username c = ""))
    /\ (forall tok c,
          v <> "" ->
          ParseSigned v = Ok tok ->
          JWTClaims s Unmarshal_authNCookieJWT tok = Ok c ->
          claimsInWindow (appName s) ("state:" ++ AuthCookieName)
            (ck_Issuer c) (ck_Subject c) (ck_NotBefore c)
            (ck_Expiration c) w = true ->
          ck_Username c <> "" ->
          fst (validateUserCookieValue s v w) = Done (ck_Username c, None)).
Proof.
  intros s v w. split; [|split; [|split]].
  - intros H. rewrite validateUserCookieValue_run. unfold cookieVerdict.
    destruct (len_lt_1 v) eqn:Hlen; [reflexivity|].
    destruct H as [Hv|[[e He]|[[tok [Htok Hsig]]|[tok [e [Htok He]]]]]].
    + apply len_lt_1_true in Hv. congruence.
    + rewrite He. reflexivity.
    + rewrite Htok.
      destruct (JWTClaims_from_no_signature Unmarshal_authNCookieJWT tok
                  (sharedSecrets s) None Hsig) as [e He].
      unfold JWTClaims. rewrite He. reflexivity.
    + rewrite Htok, He. reflexivity.
  - intros tok c Htok Hc Hwin. rewrite validateUserCookieValue_run.
    unfold cookieVerdict. rewrite Htok, Hc, Hwin.
    destruct (len_lt_1 v); reflexivity.
  - intros u e. rewrite validateUserCookieValue_run. unfold cookieVerdict.
    split.
    + intros H. destruct (len_lt_1 v) eqn:Hlen; [discriminate|].
      apply len_lt_1_false in Hlen.
      destruct (ParseSigned v) as [tok|e0] eqn:Htok; [|discriminate].
      destruct (JWTClaims s Unmarshal_authNCookieJWT tok) as [c|e0] eqn:Hc;
        [|discriminate].
      destruct (claimsInWindow _ _ _ _ _ _ w) eqn:Hwin; [|discriminate].
      destruct (len_lt_1 (ck_Username c)) eqn:Hu; [|discriminate].
      injection H as <- <-. apply len_lt_1_true in Hu.
      split; [reflexivity|]. split; [reflexivity|]. split; [exact Hlen|].
      exists tok, c. repeat split; try reflexivity; assumption.
    + intros [-> [-> [Hv [tok [c [Htok [Hc [Hwin Hu]]]]]]]].
      apply len_lt_1_false in Hv. rewrite Hv, Htok, Hc, Hwin.
      apply len_lt_1_true in Hu. rewrite Hu. reflexivity.
  - intros tok c Hv Htok Hc Hwin Hu. rewrite validateUserCookieValue_run.
    unfold cookieVerdict. apply len_lt_1_false in Hv.
    apply len_lt_1_false in Hu. rewrite Hv, Htok, Hc, Hwin, Hu. reflexivity.
Qed.

(** C3 (amended). The validity window is closed at both ends.  When the
    clock reads [now] during the check, a session token that verifies and
    decodes is accepted (its non-empty username returned with a nil error)
    exactly when issuer and subject match and not-before <= now <=
    expiration, and a state token that verifies and decodes is accepted
    exactly under the same condition on its own claims; so a token whose
    expiration claim equals the current time is still accepted, and one
    whose expiration is before the current time is rejected. *)
Theorem validity_window_is_closed :
  forall (s : Authenticator) (w : World) (now : Z),
    Unix (clock w (ticks w)) = now ->
    Unix (clock w (S (ticks w))) = now ->
    (forall (v : string) (tok : JSONWebToken) (c : authNCookieJWT),
        v <> "" ->
        ParseSigned v = Ok tok ->
        JWTClaims s Unmarshal_authNCookieJWT tok = Ok c ->
        ck_Username c <> "" ->
        (fst (validateUserCookieValue s v w) = Done (ck_Username c, None)
         <-> (ck_Issuer c = appName s
              /\ ck_Subject c = "state:" ++ AuthCookieName
              /\ ck_NotBefore c <= now <= ck_Expiration c)))
    /\ (forall (r : Request) (tok : JSONWebToken) (c : oauth2StateJWT),
        Values_Get (URL_Query (r_URL r)) "state" <> "" ->
        ParseSigned (Values_Get (URL_Query (r_URL r)) "state") = Ok tok ->
        JWTClaims s Unmarshal_oauth2StateJWT tok = Ok c ->
        (fst (getVerifyReturnStateJWT s r w) = Done (c, None)
         <-> (st_Issuer c = appName s
              /\ st_Subject c = "state:" ++ redirCookieName
              /\ st_NotBefore c <= now <= st_Expiration c))).
Proof.
  intros s w now Hn1 Hn2.
  assert (Hwin : forall issuer subject iss sub nbf exp,
             claimsInWindow issuer subject iss sub nbf exp w = true
             <-> (iss = issuer /\ sub = subject /\ nbf <= now <= exp)).
  { intros. unfold claimsInWindow. rewrite Hn1, Hn2.
    rewrite !andb_true_iff, !String.eqb_eq, !Z.leb_le. tauto. }
  split.
  - intros v tok c Hv Htok Hc Hu. rewrite validateUserCookieValue_run.
    unfold cookieVerdict. apply len_lt_1_false in Hv. rewrite Hv, Htok, Hc.
    rewrite <- Hwin.
    destruct (claimsInWindow _ _ _ _ _ _ w).
    + pose proof Hu as Hu'. apply len_lt_1_false in Hu'. rewrite Hu'.
      split; reflexivity.
    + split; [|discriminate]. intros H. injection H as H.
      exfalso. apply Hu. symmetry. exact H.
  - intros r tok c Hv Htok Hc.
    destruct (getVerifyReturnStateJWT_run s r w) as [n Hrun]. rewrite Hrun.
    simpl. unfold stateVerdict. apply len_lt_1_false in Hv.
    rewrite Hv, Htok, Hc. rewrite <- Hwin.
    destruct (claimsInWindow _ _ _ _ _ _ w).
    + split; reflexivity.
    + split; discriminate.
Qed.

End Outcomes.

(** *** The callback handler and identity resolution *)

Section Handlers.
Context {L : GoLibs} {K : PkgConsts}.

Lemma emit_two (e1 e2 : Event) (w : World) :
  (emit e1 ;;; emit e2) w = (Done tt, emitted w [e1; e2]).
Proof.
  unfold bind, emit, emitted. simpl. rewrite <- app_assoc. reflexivity.
Qed.

(** The handler's run when the state token does not validate. *)
Lemma handler_rejects_bad_state (s : Authenticator) (r : Request) (w : World) :
  Method r = "GET" ->
  Values_Get (URL_Query (r_URL r)) "code" <> "" ->
  snd (stateVerdict s r w) <> None ->
  exists n : nat,
    oauth2RedirectPathHandler s r w =
    (Done tt,
     emitted (tick n w)
       [EvLog "error processing state err: %s\n";
        EvHttpError "null or bad inboundState" StatusUnauthorized]).
Proof.
  intros Hm Hcode Hst. unfold oauth2RedirectPathHandler.
  rewrite Hm. simpl. apply len_lt_1_false in Hcode. rewrite Hcode.
  unfold bind at 1.
  destruct (getVerifyReturnStateJWT_run s r w) as [n Hrun]. rewrite Hrun.
  exists n. destruct (snd (stateVerdict s r w)) as [err|]; [|congruence].
  apply emit_two.
Qed.

(** C8. Callback gating order: a non-GET request is answered 405 and
    nothing else happens; a GET request without a code is answered with the
    client error 401; a GET request with a code whose state parameter is
    missing or does not validate is answered 401; and whenever the handler
    calls the provider (token exchange or userinfo fetch), the request was
    a GET with a code whose state token validated, the validation being
    computed from the request and the clock alone. *)
Theorem callback_gating_order :
  forall (s : Authenticator) (r : Request) (w : World),
    (Method r <> "GET" ->
     oauth2RedirectPathHandler s r w =
     (Done tt, emitted w [EvHttpError "Invalid method" StatusMethodNotAllowed]))
    /\ (Method r = "GET" ->
        Values_Get (URL_Query (r_URL r)) "code" = "" ->
        oauth2RedirectPathHandler s r w =
        (Done tt,
         emitted w [EvLog "null code";
                    EvHttpError "null code" StatusUnauthorized]))
    /\ (Method r = "GET" ->
        Values_Get (URL_Query (r_URL r)) "code" <> "" ->
        forall (c : oauth2StateJWT) (err : error),
          fst (getVerifyReturnStateJWT s r w) = Done (c, Some err) ->
          fst (oauth2RedirectPathHandler s r w) = Done tt
          /\ trace (snd (oauth2RedirectPathHandler s r w)) =
             (trace w ++
              [EvLog "error processing state err: %s\n";
               EvHttpError "null or bad inboundState" StatusUnauthorized])%list)
    /\ (Values_Get (URL_Query (r_URL r)) "state" = "" ->
        fst (getVerifyReturnStateJWT s r w) =
        Done (zero_oauth2StateJWT, Some (errors_New "null inbound state")))
    /\ (forall evs : list Event,
          trace (snd (oauth2RedirectPathHandler s r w)) = (trace w ++ evs)%list ->
          existsb isPostForm evs = true ->
          Method r = "GET"
          /\ Values_Get (URL_Query (r_URL r)) "code" <> ""
          /\ exists c, fst (getVerifyReturnStateJWT s r w) = Done (c, None))
    /\ 400 <= StatusMethodNotAllowed < 500
    /\ 400 <= StatusUnauthorized < 500.
Proof.
  intros s r w.
  assert (H405 : Method r <> "GET" ->
            oauth2RedirectPathHandler s r w =
            (Done tt,
             emitted w [EvHttpError "Invalid method" StatusMethodNotAllowed])).
  { intros Hm. unfold oauth2RedirectPathHandler.
    apply String.eqb_neq in Hm. rewrite Hm. reflexivity. }
  assert (H401 : Method r = "GET" ->
            Values_Get (URL_Query (r_URL r)) "code" = "" ->
            oauth2RedirectPathHandler s r w =
            (Done tt,
             emitted w [EvLog "null code";
                        EvHttpError "null code" StatusUnauthorized])).
  { intros Hm Hcode. unfold oauth2RedirectPathHandler.
    rewrite Hm, Hcode. simpl. apply emit_two. }
  destruct (getVerifyReturnStateJWT_run s r w) as [n Hrun].
  split; [exact H405|]. split; [exact H401|]. split; [|split; [|split]].
  - intros Hm Hcode c err Hst. rewrite Hrun in Hst. simpl in Hst.
    injection Hst as Hst.
    destruct (handler_rejects_bad_state s r w Hm Hcode) as [m Hrej].
    { rewrite Hst. simpl. discriminate. }
    rewrite Hrej. split; reflexivity.
  - intros Hstate. rewrite Hrun. simpl. unfold stateVerdict.
    rewrite Hstate. reflexivity.
  - intros evs Htrace Hposts.
    destruct (String.eqb (Method r) "GET") eqn:Hm.
    2:{ apply String.eqb_neq in Hm. rewrite (H405 Hm) in Htrace.
        simpl in Htrace. apply app_inv_head in Htrace. subst evs.
        discriminate. }
    apply String.eqb_eq in Hm.
    destruct (String.eqb (Values_Get (URL_Query (r_URL r)) "code") "") eqn:Hc.
    { apply String.eqb_eq in Hc. rewrite (H401 Hm Hc) in Htrace.
      simpl in Htrace. apply app_inv_head in Htrace. subst evs.
      discriminate. }
    apply String.eqb_neq in Hc.
    destruct (snd (stateVerdict s r w)) as [err|] eqn:Hv.
    { destruct (handler_rejects_bad_state s r w Hm Hc) as [m Hrej].
      { rewrite Hv. discriminate. }
      rewrite Hrej in Htrace. simpl in Htrace.
      apply app_inv_head in Htrace. subst evs. discriminate. }
    split; [exact Hm|]. split; [exact Hc|].
    exists (fst (stateVerdict s r w)). rewrite Hrun. simpl.
    rewrite <- Hv. destruct (stateVerdict s r w); reflexivity.
  - unfold StatusMethodNotAllowed, StatusUnauthorized. lia.
Qed.

(** C10. TLS identity is returned unchecked: when the connection carries
    a verified certificate chain, [getRemoteUserName] returns the leaf
    certificate's subject common name with a nil error and leaves the
    world as it was (no header hook, no response write, no redirect, no
    clock read), whatever cookies the request carries and even when the
    common name is the empty string. *)
Theorem getRemoteUserName_certificate_unchecked :
  forall (s : Authenticator) (r : Request) (w : World) (tls : ConnectionState)
         (leaf : Certificate) (chain : list Certificate)
         (chains : list (list Certificate)),
    TLS r = Some tls ->
    VerifiedChains tls = (leaf :: chain) :: chains ->
    getRemoteUserName s r w = (Done (Subject_CommonName leaf, None), w)
    /\ (forall cookies : list (string * string),
          getRemoteUserName s (withCookies r cookies) w =
          (Done (Subject_CommonName leaf, None), w))
    /\ (Subject_CommonName leaf = "" ->
        getRemoteUserName s r w = (Done ("", None), w)).
Proof.
  intros s r w tls leaf chain chains Htls Hchains.
  assert (H : forall r', TLS r' = Some tls ->
            getRemoteUserName s r' w = (Done (Subject_CommonName leaf, None), w)).
  { intros r' Hr'. unfold getRemoteUserName. rewrite Hr', Hchains.
    reflexivity. }
  split; [apply H; exact Htls|]. split.
  - intros cookies. apply H. exact Htls.
  - intros Hcn. rewrite <- Hcn. apply H. exact Htls.
Qed.

(** Signing with an empty secret set panics on [sharedSecrets[0]]. *)
Lemma sign_ops_panic_on_empty_secret_set (a : Authenticator)
    (username : string) (expires : time_Time) (r : Request) (w : World) :
  sharedSecrets a = [] ->
  genUserCookieValue a username expires w =
  (Panicked "runtime error: index out of range [0] with length 0", w)
  /\ generateValidStateString a r w =
     (Panicked "runtime error: index out of range [0] with length 0", w).
Proof.
  intros Hs. unfold genUserCookieValue, generateValidStateString.
  rewrite Hs. split; reflexivity.
Qed.

(** Signing when the first secret is the empty key returns the
    configuration error. *)
Lemma sign_ops_error_on_empty_first_secret (a : Authenticator)
    (username : string) (expires : time_Time) (r : Request) (w : World)
    (rest : list string) :
  sharedSecrets a = "" :: rest ->
  genUserCookieValue a username expires w =
  (Done ("", Some (errors_New "invalid authenticator state, no shared secrets")),
   w)
  /\ generateValidStateString a r w =
     (Done ("", Some (errors_New "invalid authenticator state, no shared secrets")),
      w).
Proof.
  intros Hs. unfold genUserCookieValue, generateValidStateString.
  rewrite Hs. split; reflexivity.
Qed.

End Handlers.

(** *** A completed login *)

Section Login.
Context {L : GoLibs} {K : PkgConsts}.
Hypothesis laws : LibLaws L.

Lemma post_run (url : string) (data : Values) (w : World) :
  getBytesFromSuccessfullPost url data w =
  (Done match network w url data with
        | PostFailed err => Err err
        | PostResponse _ (Err err) => Err err
        | PostResponse StatusCode (Ok body) =>
            if StatusCode >=? 300
            then Err (errors_New "invalid status code")
            else Ok body
        end,
   emitted w [EvPostForm url data]).
Proof.
  unfold getBytesFromSuccessfullPost, bind, emit, emitted, ret. simpl.
  destruct (network w url data) as [e|code [body|e]]; try reflexivity.
  destruct (code >=? 300); reflexivity.
Qed.

(** Once the gates are passed and the provider has answered both calls,
    the handler sets a session cookie for whatever username was derived
    (empty or not) and redirects to the return URL. *)
Lemma callback_completes_login (s : Authenticator) (r : Request) (w : World)
    (key : string) (rest : list string) (code1 code2 : Z)
    (tokenBody userBody : string) (tok : accessToken)
    (u : openidConnectUserInfo) :
  Method r = "GET" ->
  Values_Get (URL_Query (r_URL r)) "code" <> "" ->
  snd (stateVerdict s r w) = None ->
  sharedSecrets s = key :: rest ->
  key <> "" ->
  network w (TokenURL (openID s)) (tokenRequestForm s r)
  = PostResponse code1 (Ok tokenBody) ->
  code1 < 300 ->
  Unmarshal_accessToken tokenBody = Ok tok ->
  at_TokenType tok = "Bearer" ->
  at_AccessToken tok <> "" ->
  network w (UserinfoURL (openID s)) [("access_token", [at_AccessToken tok])]
  = PostResponse code2 (Ok userBody) ->
  code2 < 300 ->
  Unmarshal_openidConnectUserInfo userBody = Ok u ->
  exists n : nat,
    let expires :=
      Add (clock w (n + ticks w)) (time_Hour * cookieExpirationHours) in
    oauth2RedirectPathHandler s r w =
    (Done tt,
     emitted (tick (S (S n)) w)
       [EvPostForm (TokenURL (openID s)) (tokenRequestForm s r);
        EvPostForm (UserinfoURL (openID s))
          [("access_token", [at_AccessToken tok])];
        EvSetCookie
          {| c_Name := AuthCookieName;
             c_Value :=
               CompactSerialize
                 (Sign key
                    (Marshal_authNCookieJWT
                       (sessionClaims s (getUsernameFromUserinfo u)
                          expires (tick (S n) w))));
             c_Path := "/"; c_Expires := expires;
             c_HttpOnly := true; c_Secure := true |};
        EvRedirect (st_ReturnURL (fst (stateVerdict s r w))) StatusFound]).
Proof.
  intros Hm Hcode Hst Hs Hk Hnet1 Hc1 Htok Hty Hat Hnet2 Hc2 Hu.
  unfold oauth2RedirectPathHandler. rewrite Hm. simpl.
  pose proof Hcode as Hcode'. apply len_lt_1_false in Hcode'. rewrite Hcode'.
  unfold bind at 1.
  destruct (getVerifyReturnStateJWT_run s r w) as [n Hrun]. rewrite Hrun.
  rewrite Hst.
  unfold bind at 1. fold (tokenRequestForm s r). rewrite post_run.
  change (network (tick n w)) with (network w). rewrite Hnet1.
  assert (Hge1 : (code1 >=? 300) = false)
    by (rewrite Z.geb_leb; apply Z.leb_gt; exact Hc1).
  assert (Hge2 : (code2 >=? 300) = false)
    by (rewrite Z.geb_leb; apply Z.leb_gt; exact Hc2).
  rewrite Hge1, Htok, Hty. simpl.
  apply len_lt_1_false in Hat. rewrite Hat.
  unfold bind at 1. rewrite post_run.
  change (network (emitted (tick n w) _)) with (network w). rewrite Hnet2.
  rewrite Hge2, Hu.
  unfold bind at 1. unfold setAndStoreAuthCookie. unfold bind at 1.
  unfold time_Now at 1. unfold bind at 1.
  rewrite (genUserCookieValue_run laws _ _ _ _ key rest Hs Hk).
  cbn [snd fst]. unfold bind at 1.
  exists n.
  unfold http_SetCookie, http_Redirect, emit, emitted, tick, ret; cbn.
  rewrite <- !app_assoc. reflexivity.
Qed.

End Login.

(** *** The program on the concrete deployment *)

Module ScenarioFacts.
Import Reference Scenario.

(** C3, as stated, fails: a session cookie whose expiration claim (second
    8200) equals the current time is accepted, and so is a state token
    whose expiration claim (second 1300) equals the current time. *)
Lemma token_accepted_at_expiration :
  ck_Expiration (sessionClaims auth "alice" expires (world 1000 alice))
  = Unix (clock (world 8200 alice) 0)
  /\ fst (validateUserCookieValue auth cookie (world 8200 alice))
     = Done ("alice", None)
  /\ st_Expiration (stateClaims auth protectedRequest (world 1000 alice))
     = Unix (clock (world 1300 alice) 0)
  /\ fst (getVerifyReturnStateJWT auth callback (world 1300 alice))
     = Done (stateClaims auth protectedRequest (world 1000 alice), None).
Proof. repeat split; vm_compute; reflexivity. Qed.

(** C4, as stated, fails: with two secrets configured, a token signed
    with an unknown key and a token whose payload does not decode are both
    refused by every secret, yet neither gets the generic error, and the
    two errors differ. *)
Lemma JWTClaims_error_tells_causes_apart :
  (forall k, In k (sharedSecrets auth) ->
             exists e, Claims Unmarshal_authNCookieJWT forged k = Err e)
  /\ (forall k, In k (sharedSecrets auth) ->
                exists e, Claims Unmarshal_authNCookieJWT garbled k = Err e)
  /\ JWTClaims auth Unmarshal_authNCookieJWT forged = Err ErrCryptoFailure
  /\ JWTClaims auth Unmarshal_authNCookieJWT garbled
     = Err (ErrUnmarshal "authNCookieJWT")
  /\ JWTClaims auth Unmarshal_authNCookieJWT forged
     <> Err (errors_New "No valid key found")
  /\ JWTClaims auth Unmarshal_authNCookieJWT garbled
     <> Err (errors_New "No valid key found").
Proof.
  split; [|split].
  - intros k [<-|[<-|[]]]; eexists; vm_compute; reflexivity.
  - intros k [<-|[<-|[]]]; eexists; vm_compute; reflexivity.
  - repeat split; vm_compute; try reflexivity; discriminate.
Qed.

(** C5: the code at the failing input.  The provider answers with a
    userinfo object whose four name fields are empty; the derived username
    is empty, and the callback handler still sets a session cookie, signed
    for the empty username, and redirects (302) to the return URL.  The
    next request carrying that cookie is answered by the fatal-error
    path of cookie validation. *)
Theorem empty_username_login_completes :
  getUsernameFromUserinfo nameless = ""
  /\ fst (oauth2RedirectPathHandler auth callback (world 1100 nameless))
     = Done tt
  /\ filter isResponseWrite
       (trace (snd (oauth2RedirectPathHandler auth callback
                      (world 1100 nameless))))
     = [EvSetCookie
          {| c_Name := AuthCookieName;
             c_Value :=
               issued (genUserCookieValue auth ""
                         (Add (at_second 1100)
                            (time_Hour * cookieExpirationHours)))
                 (world 1100 nameless);
             c_Path := "/";
             c_Expires :=
               Add (at_second 1100) (time_Hour * cookieExpirationHours);
             c_HttpOnly := true; c_Secure := true |};
        EvRedirect "/protected" StatusFound]
  /\ fst (validateUserCookieValue auth
            (issued (genUserCookieValue auth ""
                       (Add (at_second 1100)
                          (time_Hour * cookieExpirationHours)))
               (world 1100 nameless))
            (world 1200 nameless))
     = Done ("", Some (errors_New "bad cookie Vauue state")).
Proof. repeat split; vm_compute; reflexivity. Qed.

(** C9: the code at the failing input.  With an empty secret set both
    sign operations panic on [sharedSecrets[0]] instead of returning the
    configuration error, which they do return when the first secret is the
    empty key. *)
Theorem sign_without_secrets_panics :
  fst (genUserCookieValue unconfigured "alice" expires (world 1000 alice))
  = Panicked "runtime error: index out of range [0] with length 0"
  /\ fst (generateValidStateString unconfigured protectedRequest
            (world 1000 alice))
     = Panicked "runtime error: index out of range [0] with length 0"
  /\ fst (genUserCookieValue emptyFirstSecret "alice" expires
            (world 1000 alice))
     = Done ("", Some (errors_New
                         "invalid authenticator state, no shared secrets"))
  /\ fst (generateValidStateString emptyFirstSecret protectedRequest
            (world 1000 alice))
     = Done ("", Some (errors_New
                         "invalid authenticator state, no shared secrets")).
Proof. repeat split; reflexivity. Qed.

Lemma session_cookie_round_trip_witness :
  exists (cookie : string) (w0' : World),
    genUserCookieValue auth "alice" expires (world 1000 alice)
    = (Done (cookie, None), w0')
    /\ fst (validateUserCookieValue auth cookie (world 2000 alice))
       = Done ("alice", None).
Proof.
  apply (@session_cookie_round_trip Libs Consts ReferenceFacts.Libs_laws
           auth "alice" expires (world 1000 alice) (world 2000 alice)
           "k-new" ["k-old"]).
  - discriminate.
  - reflexivity.
  - discriminate.
  - vm_compute. discriminate.
  - vm_compute. reflexivity.
Defined.

Lemma validateUserCookieValue_three_way_witness :
  JWTClaims auth Unmarshal_authNCookieJWT garbled
  = Err (ErrUnmarshal "authNCookieJWT")
  /\ Verify garbled "k-old" = Ok (payload garbled)
  /\ fst (validateUserCookieValue auth (CompactSerialize garbled)
            (world 2000 alice)) = Done ("", None)
  /\ fst (validateUserCookieValue auth cookie (world 9000 alice))
     = Done ("", None)
  /\ fst (validateUserCookieValue auth Flow.namelessCookie
            (world 2000 alice))
     = Done ("", Some (errors_New "bad cookie Vauue state"))
  /\ fst (validateUserCookieValue auth cookie (world 2000 alice))
     = Done ("alice", None).
Proof.
  split; [vm_compute; reflexivity|]. split; [vm_compute; reflexivity|].
  split; [|split; [|split]].
  - apply (proj1 (@validateUserCookieValue_three_way Libs Consts auth
                    (CompactSerialize garbled) (world 2000 alice))).
    right. right. right.
    exists garbled, (ErrUnmarshal "authNCookieJWT").
    split; vm_compute; reflexivity.
  - apply (proj1 (proj2 (@validateUserCookieValue_three_way Libs Consts auth
                           cookie (world 9000 alice)))
             (Sign "k-new"
                (Marshal_authNCookieJWT
                   (sessionClaims auth "alice" expires (world 1000 alice))))
             (sessionClaims auth "alice" expires (world 1000 alice)));
      vm_compute; reflexivity.
  - apply (proj1 (proj2 (proj2 (@validateUserCookieValue_three_way Libs
                                  Consts auth Flow.namelessCookie
                                  (world 2000 alice))))
             "" (errors_New "bad cookie Vauue state")).
    split; [reflexivity|]. split; [reflexivity|].
    split; [vm_compute; discriminate|].
    exists (Sign "k-new"
              (Marshal_authNCookieJWT
                 (sessionClaims auth "" expires (world 1000 alice)))),
           (sessionClaims auth "" expires (world 1000 alice)).
    repeat split; vm_compute; reflexivity.
  - apply (proj2 (proj2 (proj2 (@validateUserCookieValue_three_way Libs
                                  Consts auth cookie (world 2000 alice))))
             (Sign "k-new"
                (Marshal_authNCookieJWT
                   (sessionClaims auth "alice" expires (world 1000 alice))))
             (sessionClaims auth "alice" expires (world 1000 alice))).
    + vm_compute. discriminate.
    + vm_compute. reflexivity.
    + vm_compute. reflexivity.
    + vm_compute. reflexivity.
    + vm_compute. discriminate.
Defined.

Lemma validity_window_is_closed_witness :
  fst (validateUserCookieValue auth cookie (world 8200 alice))
  = Done ("alice", None).
Proof.
  pose proof (proj1 (@validity_window_is_closed Libs Consts auth
                       (world 8200 alice) 8200 eq_refl eq_refl)
                cookie
                (Sign "k-new"
                   (Marshal_authNCookieJWT
                      (sessionClaims auth "alice" expires (world 1000 alice))))
                (sessionClaims auth "alice" expires (world 1000 alice))) as H.
  apply H.
  - vm_compute. discriminate.
  - vm_compute. reflexivity.
  - vm_compute. reflexivity.
  - vm_compute. discriminate.
  - vm_compute. repeat split; discriminate.
Defined.

Lemma JWTClaims_first_success_else_last_error_witness :
  JWTClaims unconfigured Unmarshal_authNCookieJWT forged
  = Err (errors_New "No valid key found").
Proof.
  apply (proj2 (proj2 (@JWTClaims_first_success_else_last_error Libs
                         authNCookieJWT Unmarshal_authNCookieJWT
                         unconfigured forged))).
  reflexivity.
Defined.

Lemma key_rotation_tolerance_witness :
  exists (cookie : string) (w0' : World),
    genUserCookieValue authOld "alice" expires (world 1000 alice)
    = (Done (cookie, None), w0')
    /\ cookie = CompactSerialize
                  (Sign "k-old"
                     (Marshal_authNCookieJWT
                        (sessionClaims authOld "alice" expires
                           (world 1000 alice))))
    /\ fst (validateUserCookieValue auth cookie (world 2000 alice))
       = Done ("alice", None).
Proof.
  apply (proj1 (proj2 (@key_rotation_tolerance Libs Consts
                         ReferenceFacts.Libs_laws))
           authOld auth "alice" expires (world 1000 alice)
           (world 2000 alice) "k-old" []).
  - discriminate.
  - reflexivity.
  - discriminate.
  - reflexivity.
  - right. left. reflexivity.
  - vm_compute. discriminate.
  - vm_compute. reflexivity.
Defined.

Lemma callback_gating_order_witness :
  oauth2RedirectPathHandler auth callbackPost (world 1100 alice)
  = (Done tt,
     emitted (world 1100 alice)
       [EvHttpError "Invalid method" StatusMethodNotAllowed]).
Proof.
  apply (proj1 (@callback_gating_order Libs Consts auth callbackPost
                  (world 1100 alice))).
  discriminate.
Defined.

Lemma getRemoteUserName_certificate_unchecked_witness :
  getRemoteUserName auth certRequest (world 1000 alice)
  = (Done ("", None), world 1000 alice).
Proof.
  apply (proj1 (@getRemoteUserName_certificate_unchecked Libs Consts auth
                  certRequest (world 1000 alice)
                  (mkTLS [[mkCert ""; mkCert "Example CA"]])
                  (mkCert "") [mkCert "Example CA"] []
                  eq_refl eq_refl)).
Defined.

End ScenarioFacts.

(** * Further properties of impl.go *)

(** *** What verification and validation never accept *)

Section Soundness.
Context {L : GoLibs} {K : PkgConsts}.

Lemma JWTClaims_from_sound {C : Type} (unmarshal : string -> result C)
    (t : JSONWebToken) (keys : list string) (err : option error) (c : C) :
  JWTClaims_from unmarshal keys t err = Ok c ->
  exists key,
    In key keys
    /\ HS256 key (protected t) (payload t) = signature t
    /\ unmarshal (payload t) = Ok c.
Proof.
  revert err. induction keys as [|k ks IH]; intros err H; simpl in H.
  - destruct err; discriminate.
  - unfold Claims, Verify in H.
    destruct (String.eqb (HS256 k (protected t) (payload t)) (signature t))
      eqn:Hmac.
    + destruct (unmarshal (payload t)) as [c'|e] eqn:Hdec.
      * injection H as H. exists k. apply String.eqb_eq in Hmac.
        split; [left; reflexivity|]. split; [exact Hmac | congruence].
      * destruct (IH _ H) as [key [Hin Hkey]]. exists key.
        split; [right; exact Hin | exact Hkey].
    + destruct (IH _ H) as [key [Hin Hkey]]. exists key.
      split; [right; exact Hin | exact Hkey].
Qed.

(** X1. [JWTClaims] is sound: when it returns a nil error, some configured
    secret's MAC over the token's header and payload equals the token's
    signature, and the destination holds the decoding of that payload.  In
    particular it never succeeds with an empty secret set. *)
Theorem JWTClaims_sound :
  forall (C : Type) (unmarshal : string -> result C) (s : Authenticator)
         (t : JSONWebToken) (c : C),
    JWTClaims s unmarshal t = Ok c ->
    (exists key,
        In key (sharedSecrets s)
        /\ HS256 key (protected t) (payload t) = signature t
        /\ unmarshal (payload t) = Ok c)
    /\ sharedSecrets s <> [].
Proof.
  intros C unmarshal s t c H. unfold JWTClaims in H.
  destruct (JWTClaims_from_sound unmarshal t _ _ c H) as [key [Hin Hkey]].
  split.
  - exists key. split; assumption.
  - intros Hnil. rewrite Hnil in Hin. destruct Hin.
Qed.

Lemma claimsInWindow_true (issuer subject iss sub : string) (nbf exp : Z)
    (w : World) :
  claimsInWindow issuer subject iss sub nbf exp w = true <->
  iss = issuer /\ sub = subject
  /\ nbf <= Unix (clock w (ticks w))
  /\ Unix (clock w (S (ticks w))) <= exp.
Proof.
  unfold claimsInWindow.
  rewrite !andb_true_iff, !String.eqb_eq, !Z.leb_le. tauto.
Qed.

(** X2. Cookie validation never authenticates without a valid token: a
    non-empty username with a nil error is returned only for a value that
    parses to a token signed under a configured secret, whose payload
    decodes to claims carrying that username, the application's issuer and
    the session subject, with the two clock readings inside the closed
    window from not-before to expiration. *)
Theorem validateUserCookieValue_sound :
  forall (s : Authenticator) (v : string) (w : World) (u : string),
    fst (validateUserCookieValue s v w) = Done (u, None) ->
    u <> "" ->
    exists (tok : JSONWebToken) (key : string) (c : authNCookieJWT),
      ParseSigned v = Ok tok
      /\ In key (sharedSecrets s)
      /\ HS256 key (protected tok) (payload tok) = signature tok
      /\ Unmarshal_authNCookieJWT (payload tok) = Ok c
      /\ ck_Username c = u
      /\ ck_Issuer c = appName s
      /\ ck_Subject c = "state:" ++ AuthCookieName
      /\ ck_NotBefore c <= Unix (clock w (ticks w))
      /\ Unix (clock w (S (ticks w))) <= ck_Expiration c.
Proof.
  intros s v w u H Hu. rewrite validateUserCookieValue_run in H.
  unfold cookieVerdict in H. injection H as H.
  destruct (len_lt_1 v); [injection H as H; congruence|].
  destruct (ParseSigned v) as [tok|e]; [|injection H as H; congruence].
  destruct (JWTClaims s Unmarshal_authNCookieJWT tok) as [c|e] eqn:Hc;
    [|injection H as H; congruence].
  destruct (claimsInWindow _ _ _ _ _ _ w) eqn:Hwin;
    [|injection H as H; congruence].
  destruct (len_lt_1 (ck_Username c)); [discriminate|].
  injection H as H.
  destruct (JWTClaims_from_sound _ _ _ _ _ Hc) as [key [Hin [Hmac Hdec]]].
  apply claimsInWindow_true in Hwin. destruct Hwin as [Hi [Hs [Hn He]]].
  exists tok, key, c. repeat split; assumption.
Qed.

(** X3. State validation never accepts without a valid token: a nil error
    is returned only when the request's state parameter parses to a token
    signed under a configured secret, whose payload decodes to the claims
    returned, carrying the application's issuer and the redirect-state
    subject, with the two clock readings inside the closed window. *)
Theorem getVerifyReturnStateJWT_sound :
  forall (s : Authenticator) (r : Request) (w : World) (c : oauth2StateJWT),
    fst (getVerifyReturnStateJWT s r w) = Done (c, None) ->
    exists (tok : JSONWebToken) (key : string),
      Values_Get (URL_Query (r_URL r)) "state" <> ""
      /\ ParseSigned (Values_Get (URL_Query (r_URL r)) "state") = Ok tok
      /\ In key (sharedSecrets s)
      /\ HS256 key (protected tok) (payload tok) = signature tok
      /\ Unmarshal_oauth2StateJWT (payload tok) = Ok c
      /\ st_Issuer c = appName s
      /\ st_Subject c = "state:" ++ redirCookieName
      /\ st_NotBefore c <= Unix (clock w (ticks w))
      /\ Unix (clock w (S (ticks w))) <= st_Expiration c.
Proof.
  intros s r w c H.
  destruct (getVerifyReturnStateJWT_run s r w) as [n Hrun].
  rewrite Hrun in H. simpl in H. injection H as H. unfold stateVerdict in H.
  destruct (len_lt_1 _) eqn:Hlen; [discriminate|].
  apply len_lt_1_false in Hlen.
  destruct (ParseSigned _) as [tok|e]; [|discriminate].
  destruct (JWTClaims s Unmarshal_oauth2StateJWT tok) as [c'|e] eqn:Hc;
    [|discriminate].
  destruct (claimsInWindow _ _ _ _ _ _ w) eqn:Hwin; [|discriminate].
  injection H as ->.
  destruct (JWTClaims_from_sound _ _ _ _ _ Hc) as [key [Hin [Hmac Hdec]]].
  apply claimsInWindow_true in Hwin. destruct Hwin as [Hi [Hs [Hn He]]].
  exists tok, key. repeat split; assumption.
Qed.

End Soundness.

(** *** Effects of validation, and validity of issued tokens *)

Section Effects.
Context {L : GoLibs} {K : PkgConsts}.

Lemma tick_0 (w : World) : tick 0 w = w.
Proof. destruct w; reflexivity. Qed.

Lemma emitted_nil (w : World) : emitted w [] = w.
Proof. destruct w; unfold emitted; simpl. now rewrite app_nil_r. Qed.

Lemma log_then_ret {A : Type} (format : string) (a : A) (w : World) :
  (logPrintf format ;;; ret a) w = (Done a, emitted w [EvLog format]).
Proof. reflexivity. Qed.

(** The check reads the clock twice when it passes, and at most twice
    otherwise. *)
Lemma window_check_cost (issuer subject iss sub : string) (nbf exp : Z)
    (w : World) :
  exists n : nat,
    orM (negb (String.eqb iss issuer))
      (orM (negb (String.eqb sub subject))
        (t1 <- time_Now ;;
         orM (nbf >? Unix t1)
           (t2 <- time_Now ;; ret (exp <? Unix t2)))) w
    = (Done (negb (claimsInWindow issuer subject iss sub nbf exp w)),
       tick n w)
    /\ (n <= 2)%nat
    /\ (claimsInWindow issuer subject iss sub nbf exp w = true -> n = 2%nat).
Proof.
  unfold claimsInWindow, orM, bind, time_Now, ret, tick.
  destruct (String.eqb iss issuer); simpl.
  2:{ exists 0%nat. split; [destruct w; reflexivity|].
      split; [lia | discriminate]. }
  destruct (String.eqb sub subject); simpl.
  2:{ exists 0%nat. split; [destruct w; reflexivity|].
      split; [lia | discriminate]. }
  destruct (Z.gtb_spec nbf (Unix (clock w (ticks w)))) as [Hlt|Hle].
  - exists 1%nat. simpl.
    replace (nbf <=? Unix (clock w (ticks w))) with false
      by (symmetry; apply Z.leb_gt; exact Hlt).
    split; [reflexivity|]. split; [lia | discriminate].
  - exists 2%nat. simpl.
    replace (nbf <=? Unix (clock w (ticks w))) with true
      by (symmetry; apply Z.leb_le; exact Hle).
    simpl. rewrite Z.leb_antisym, negb_involutive.
    split; [reflexivity|]. split; [lia | reflexivity].
Qed.

(** X4. Cookie validation has no effect but logging and reading the
    clock: it never panics, never writes to the response and never calls
    the provider; it appends at most one log line, reads the clock at most
    twice, and when it returns a non-empty username it has logged nothing
    and read the clock exactly twice. *)
Theorem validateUserCookieValue_effects :
  forall (s : Authenticator) (v : string) (w : World),
    exists (res : string * option error) (n : nat) (logs : list Event),
      validateUserCookieValue s v w = (Done res, emitted (tick n w) logs)
      /\ (n <= 2)%nat
      /\ (List.length logs <= 1)%nat
      /\ forallb isLog logs = true
      /\ (fst res <> "" -> n = 2%nat /\ logs = [] /\ snd res = None).
Proof.
  intros s v w. unfold validateUserCookieValue.
  assert (Hrej : forall (format : string) (n : nat) (w' : World),
             w' = tick n w ->
             (n <= 2)%nat ->
             exists (res : string * option error) (m : nat)
                    (logs : list Event),
               (logPrintf format ;;; ret ("", None)) w'
               = (Done res, emitted (tick m w) logs)
               /\ (m <= 2)%nat
               /\ (List.length logs <= 1)%nat
               /\ forallb isLog logs = true
               /\ (fst res <> "" -> m = 2%nat /\ logs = [] /\ snd res = None)).
  { intros format n w' -> Hn. exists ("", None), n, [EvLog format].
    split; [reflexivity|]. split; [exact Hn|]. split; [simpl; lia|].
    split; [reflexivity|]. intros H. exfalso. apply H. reflexivity. }
  destruct (len_lt_1 v).
  { apply (Hrej _ 0%nat); [symmetry; apply tick_0 | lia]. }
  destruct (ParseSigned v) as [tok|e].
  2:{ apply (Hrej _ 0%nat); [symmetry; apply tick_0 | lia]. }
  destruct (JWTClaims s Unmarshal_authNCookieJWT tok) as [c|e].
  2:{ apply (Hrej _ 0%nat); [symmetry; apply tick_0 | lia]. }
  unfold bind at 1.
  destruct (window_check_cost (appName s) ("state:" ++ AuthCookieName)
              (ck_Issuer c) (ck_Subject c) (ck_NotBefore c)
              (ck_Expiration c) w) as [n [Hn [Hle Htwo]]].
  rewrite Hn.
  destruct (claimsInWindow _ _ _ _ _ _ w); simpl.
  - specialize (Htwo eq_refl). subst n.
    destruct (len_lt_1 (ck_Username c)).
    + eexists; exists 2%nat; exists []. rewrite emitted_nil.
      split; [reflexivity|]. split; [lia|]. split; [simpl; lia|].
      split; [reflexivity|]. intros H. exfalso. apply H. reflexivity.
    + eexists; exists 2%nat; exists []. rewrite emitted_nil.
      split; [reflexivity|]. split; [lia|]. split; [simpl; lia|].
      split; [reflexivity|]. intros _. repeat split; reflexivity.
  - apply (Hrej _ n); [reflexivity | exact Hle].
Qed.

Lemma wrap64_small (z : Z) : int64_range z -> wrap64 z = z.
Proof.
  unfold int64_range, wrap64. intros H. rewrite Z.mod_small; lia.
Qed.

End Effects.

Section Validity.
Context {L : GoLibs} {K : PkgConsts}.
Hypothesis laws : LibLaws L.

(** X5. Fate of an issued session cookie: a cookie issued for a non-empty
    username under a non-empty first secret, presented to a verifier that
    holds the signing key, is answered with that username exactly when the
    verifier's application name equals the issuer's and the clock readings
    lie between the issue second and the expiration second (both
    included); otherwise it is answered with the empty username and a nil
    error, never with a non-nil error. *)
Theorem issued_cookie_verdict :
  forall (issuer verifier : Authenticator) (username : string)
         (expires : time_Time) (w0 w1 : World) (key : string)
         (rest : list string),
    username <> "" ->
    sharedSecrets issuer = key :: rest ->
    key <> "" ->
    In key (sharedSecrets verifier) ->
    exists cookie : string,
      fst (genUserCookieValue issuer username expires w0)
      = Done (cookie, None)
      /\ fst (validateUserCookieValue verifier cookie w1)
         = Done (if String.eqb (appName issuer) (appName verifier)
                    && (Unix (clock w0 (ticks w0)) <=? Unix (clock w1 (ticks w1)))
                    && (Unix (clock w1 (S (ticks w1))) <=? Unix expires)
                 then (username, None)
                 else ("", None)).
Proof.
  intros issuer verifier username expires w0 w1 key rest Hu Hs Hk Hin.
  eexists. split.
  - rewrite (genUserCookieValue_run laws issuer username expires w0 key rest
               Hs Hk). reflexivity.
  - rewrite validateUserCookieValue_run. unfold cookieVerdict.
    pose proof (CompactSerialize_nonempty L laws
                  (Sign key (Marshal_authNCookieJWT
                               (sessionClaims issuer username expires w0))))
      as Hne.
    apply len_lt_1_false in Hne. rewrite Hne.
    rewrite (ParseSigned_CompactSerialize L laws).
    unfold JWTClaims.
    rewrite (JWTClaims_from_signed _ _ _
               (sessionClaims issuer username expires w0));
      [|apply (Unmarshal_Marshal_authNCookieJWT L laws)|exact Hin].
    unfold claimsInWindow. simpl. rewrite String.eqb_refl, andb_true_r.
    apply len_lt_1_false in Hu. rewrite Hu.
    destruct (_ && _ && _); reflexivity.
Qed.

(** X6. State-token round trip: the state string issued for a request
    under a non-empty first secret, carried back in the state parameter of
    a callback to a verifier that holds the signing key and has the same
    application name, decodes to claims whose return URL is the URL of the
    original request; provided the issue second plus 300 fits an int64,
    the error is nil exactly when the clock readings lie between the issue
    second and 300 seconds later (both included), and is the "invalid JWT
    values" error otherwise. *)
Theorem state_token_round_trip :
  forall (issuer verifier : Authenticator) (r0 r1 : Request) (w0 w1 : World)
         (key : string) (rest : list string),
    sharedSecrets issuer = key :: rest ->
    key <> "" ->
    In key (sharedSecrets verifier) ->
    appName verifier = appName issuer ->
    int64_range (Unix (clock w0 (ticks w0)) + maxAgeSecondsRedirCookie) ->
    exists (stateString : string) (c : oauth2StateJWT),
      fst (generateValidStateString issuer r0 w0) = Done (stateString, None)
      /\ st_ReturnURL c = URL_String (r_URL r0)
      /\ (Values_Get (URL_Query (r_URL r1)) "state" = stateString ->
          fst (getVerifyReturnStateJWT verifier r1 w1)
          = Done (c,
                  if (Unix (clock w0 (ticks w0)) <=? Unix (clock w1 (ticks w1)))
                     && (Unix (clock w1 (S (ticks w1)))
                         <=? Unix (clock w0 (ticks w0)) + 300)
                  then None
                  else Some (errors_New "invalid JWT values"))).
Proof.
  intros issuer verifier r0 r1 w0 w1 key rest Hs Hk Hin Happ Hrange.
  exists (CompactSerialize
            (Sign key (Marshal_oauth2StateJWT (stateClaims issuer r0 w0)))).
  exists (stateClaims issuer r0 w0). split; [|split].
  - rewrite (generateValidStateString_run laws issuer r0 w0 key rest Hs Hk).
    reflexivity.
  - reflexivity.
  - intros Hstate.
    destruct (getVerifyReturnStateJWT_run verifier r1 w1) as [n Hrun].
    rewrite Hrun. simpl. unfold stateVerdict. rewrite Hstate.
    pose proof (CompactSerialize_nonempty L laws
                  (Sign key (Marshal_oauth2StateJWT
                               (stateClaims issuer r0 w0)))) as Hne.
    apply len_lt_1_false in Hne. rewrite Hne.
    rewrite (ParseSigned_CompactSerialize L laws).
    unfold JWTClaims.
    rewrite (JWTClaims_from_signed _ _ _ (stateClaims issuer r0 w0));
      [|apply (Unmarshal_Marshal_oauth2StateJWT L laws)|exact Hin].
    unfold claimsInWindow. simpl. rewrite Happ, !String.eqb_refl. simpl.
    rewrite (wrap64_small _ Hrange). unfold maxAgeSecondsRedirCookie.
    destruct (_ && _); reflexivity.
Qed.

End Validity.

(** *** Setting the cookie, redirecting to the provider, posting *)

Section CookieAndRedirect.
Context {L : GoLibs} {K : PkgConsts}.
Hypothesis laws : LibLaws L.

Lemma Unix_Add_hours (t : time_Time) :
  Unix (Add t (time_Hour * cookieExpirationHours)) = Unix t + 7200.
Proof.
  unfold Unix, Add, time_Hour, cookieExpirationHours, time_Second. simpl.
  replace (unixNano t + 7200000000000)
    with (unixNano t + 7200 * 1000000000) by lia.
  rewrite Z.div_add by lia. reflexivity.
Qed.

Lemma setAndStoreAuthCookie_run (s : Authenticator) (username : string)
    (w : World) (key : string) (rest : list string) :
  sharedSecrets s = key :: rest ->
  key <> "" ->
  setAndStoreAuthCookie s username w =
  (Done None,
   emitted (tick 2 w)
     [EvSetCookie
        {| c_Name := AuthCookieName;
           c_Value :=
             CompactSerialize
               (Sign key
                  (Marshal_authNCookieJWT
                     (sessionClaims s username
                        (Add (clock w (ticks w))
                           (time_Hour * cookieExpirationHours))
                        (tick 1 w))));
           c_Path := "/";
           c_Expires :=
             Add (clock w (ticks w)) (time_Hour * cookieExpirationHours);
           c_HttpOnly := true; c_Secure := true |}]).
Proof.
  intros Hs Hk. unfold setAndStoreAuthCookie.
  unfold bind at 1. unfold time_Now at 1. unfold bind at 1.
  rewrite (genUserCookieValue_run laws _ _ _ _ key rest Hs Hk).
  reflexivity.
Qed.

(** X7. The session cookie as set: with a non-empty first secret,
    [setAndStoreAuthCookie] returns nil, reads the clock twice and writes
    exactly one cookie, named [AuthCookieName], with path "/", HttpOnly and
    Secure set, expiring 7200 seconds after the first clock reading; its
    value parses to a token whose claims carry the username, the second
    clock reading as not-before, and an expiration claim equal to the
    second of the cookie's Expires attribute. *)
Theorem setAndStoreAuthCookie_sets_session_cookie :
  forall (s : Authenticator) (username : string) (w : World) (key : string)
         (rest : list string),
    sharedSecrets s = key :: rest ->
    key <> "" ->
    exists (c : Cookie) (tok : JSONWebToken) (claims : authNCookieJWT),
      setAndStoreAuthCookie s username w
      = (Done None, emitted (tick 2 w) [EvSetCookie c])
      /\ c_Name c = AuthCookieName
      /\ c_Path c = "/"
      /\ c_HttpOnly c = true
      /\ c_Secure c = true
      /\ Unix (c_Expires c) = Unix (clock w (ticks w)) + 7200
      /\ ParseSigned (c_Value c) = Ok tok
      /\ Verify tok key = Ok (payload tok)
      /\ Unmarshal_authNCookieJWT (payload tok) = Ok claims
      /\ ck_Username claims = username
      /\ ck_Issuer claims = appName s
      /\ ck_NotBefore claims = Unix (clock w (S (ticks w)))
      /\ ck_Expiration claims = Unix (c_Expires c).
Proof.
  intros s username w key rest Hs Hk.
  set (expires := Add (clock w (ticks w)) (time_Hour * cookieExpirationHours)).
  set (claims := sessionClaims s username expires (tick 1 w)).
  eexists.
  exists (Sign key (Marshal_authNCookieJWT claims)), claims.
  split; [apply (setAndStoreAuthCookie_run s username w key rest Hs Hk)|].
  simpl. fold expires. fold claims.
  split; [reflexivity|]. split; [reflexivity|]. split; [reflexivity|].
  split; [reflexivity|]. split; [apply Unix_Add_hours|].
  split; [apply (ParseSigned_CompactSerialize L laws)|].
  split; [apply Verify_Sign|].
  split; [apply (Unmarshal_Marshal_authNCookieJWT L laws)|].
  repeat split; reflexivity.
Qed.

(** X8. The cookie that was set is good for two hours: the value written
    by [setAndStoreAuthCookie] for a non-empty username validates to that
    username, under the same authenticator, whenever the clock readings
    lie between the second the cookie was signed and 7200 seconds after
    the second the expiry was computed. *)
Theorem cookie_set_validates_for_two_hours :
  forall (s : Authenticator) (username : string) (w w1 : World)
         (key : string) (rest : list string),
    username <> "" ->
    sharedSecrets s = key :: rest ->
    key <> "" ->
    Unix (clock w (S (ticks w))) <= Unix (clock w1 (ticks w1)) ->
    Unix (clock w1 (S (ticks w1))) <= Unix (clock w (ticks w)) + 7200 ->
    exists c : Cookie,
      setAndStoreAuthCookie s username w
      = (Done None, emitted (tick 2 w) [EvSetCookie c])
      /\ fst (validateUserCookieValue s (c_Value c) w1)
         = Done (username, None).
Proof.
  intros s username w w1 key rest Hu Hs Hk Hnbf Hexp.
  eexists. split.
  - apply (setAndStoreAuthCookie_run s username w key rest Hs Hk).
  - simpl. apply (validate_issued laws); try assumption; try reflexivity.
    + rewrite Hs. left. reflexivity.
    + rewrite Unix_Add_hours. exact Hexp.
Qed.

(** X10. Redirecting to the provider: with a non-empty first secret the
    handler answers with one 302 redirect to the authorization URL built
    around a freshly signed state token for this request, reading the clock
    once; when the first secret is the empty key it logs and answers 500
    "Internal Error " instead. *)
Theorem oauth2DoRedirectoToProviderHandler_outcomes :
  forall (s : Authenticator) (r : Request) (w : World) (key : string)
         (rest : list string),
    sharedSecrets s = key :: rest ->
    (key <> "" ->
     oauth2DoRedirectoToProviderHandler s r w =
     (Done tt,
      emitted (tick 1 w)
        [EvRedirect
           (generateAuthCodeURL s
              (CompactSerialize
                 (Sign key (Marshal_oauth2StateJWT (stateClaims s r w)))) r)
           StatusFound]))
    /\ (key = "" ->
        oauth2DoRedirectoToProviderHandler s r w =
        (Done tt,
         emitted w
           [EvLog "Error from generateValidStateString err: %s\n";
            EvHttpError "Internal Error " StatusInternalServerError])).
Proof.
  intros s r w key rest Hs. split; intros Hk.
  - unfold oauth2DoRedirectoToProviderHandler, bind.
    rewrite (generateValidStateString_run laws s r w key rest Hs Hk).
    reflexivity.
  - subst key. unfold oauth2DoRedirectoToProviderHandler.
    unfold bind at 1. unfold generateValidStateString. rewrite Hs. simpl.
    unfold bind at 1. simpl. unfold bind, logPrintf, http_Error, emit, emitted.
    simpl. rewrite <- app_assoc. reflexivity.
Qed.

End CookieAndRedirect.

Section CookieFailure.
Context {L : GoLibs} {K : PkgConsts}.

(** X9. No cookie on failure: whenever [setAndStoreAuthCookie] returns a
    non-nil error it has written no cookie and no answer; the only events
    it added are log lines. *)
Theorem setAndStoreAuthCookie_error_sets_nothing :
  forall (s : Authenticator) (username : string) (w w' : World) (e : error),
    setAndStoreAuthCookie s username w = (Done (Some e), w') ->
    exists logs : list Event,
      trace w' = (trace w ++ logs)%list /\ forallb isLog logs = true.
Proof.
  intros s username w w' e H.
  unfold setAndStoreAuthCookie, genUserCookieValue, bind, time_Now, index0,
    panic, ret, logPrintf, http_SetCookie, emit in H.
  destruct (sharedSecrets s) as [|k rest]; simpl in H; [discriminate|].
  destruct (len_lt_1 k); simpl in H.
  - injection H as _ <-. exists []. simpl.
    rewrite app_nil_r. split; reflexivity.
  - destruct (NewSigner k) as [sig|err]; simpl in H; [discriminate|].
    injection H as _ <-.
    exists [EvLog "New jose signer error err: %s"]. split; reflexivity.
Qed.

(** X11. The authorization URL: the provider's authorize endpoint, then
    "&" when that endpoint already contains a question mark and "?"
    otherwise, then the encoding of query values in which response_type is
    "code", client_id, scope and redirect_uri come from the configuration
    and the request's host, and the state value is the one given; when the
    given state is empty the query has no state key at all. *)
Theorem generateAuthCodeURL_query :
  forall (s : Authenticator) (state : string) (r : Request),
    exists v : Values,
      generateAuthCodeURL s state r
      = AuthURL (openID s)
        ++ (if contains_char "?"%char (AuthURL (openID s)) then "&" else "?")
        ++ Values_Encode v
      /\ Values_Get v "response_type" = "code"
      /\ Values_Get v "client_id" = ClientID (openID s)
      /\ Values_Get v "scope" = Scopes (openID s)
      /\ Values_Get v "redirect_uri" = "https://" ++ Host r ++ Oauth2redirectPath
      /\ Values_Get v "state" = state
      /\ (state = "" -> ~ In "state" (map fst v)).
Proof.
  intros s state r. unfold generateAuthCodeURL.
  destruct (String.eqb state "") eqn:Hst; simpl.
  - apply String.eqb_eq in Hst. subst state. eexists. split; [reflexivity|].
    simpl. repeat split; try reflexivity.
    intros _ [H|[H|[H|[H|[]]]]]; discriminate.
  - eexists. split; [reflexivity|].
    unfold Values_Set. simpl. repeat split; try reflexivity.
    intros H. rewrite H in Hst. discriminate.
Qed.

(** X12. A provider call succeeds only on a readable answer below 300:
    [getBytesFromSuccessfullPost] makes exactly one call, changes nothing
    else, and returns the body exactly when the call succeeded, the body
    could be read and the status code is below 300. *)
Theorem getBytesFromSuccessfullPost_success_iff :
  forall (url : string) (data : Values) (w : World),
    exists res : result string,
      getBytesFromSuccessfullPost url data w
      = (Done res, emitted w [EvPostForm url data])
      /\ (forall body : string,
            res = Ok body <->
            exists code : Z,
              network w url data = PostResponse code (Ok body) /\ code < 300).
Proof.
  intros url data w. eexists. split; [apply post_run|].
  intros body. destruct (network w url data) as [e|code [b|e]].
  - split; [discriminate|]. intros [c [H _]]. discriminate.
  - destruct (Z.geb_spec code 300) as [Hge|Hlt].
    + split; [discriminate|]. intros [c [H Hc]]. injection H as <- <-. lia.
    + split.
      * intros H. injection H as <-. exists code. split; [reflexivity|lia].
      * intros [c [H Hc]]. injection H as <- <-. reflexivity.
  - split; [discriminate|]. intros [c [H _]]. discriminate.
Qed.

End CookieFailure.

(** *** The callback handler, run by run *)

Section Callback.
Context {L : GoLibs} {K : PkgConsts}.

Ltac shape_reject pre last :=
  eexists; exists pre, last;
  split; [reflexivity|];
  split; [simpl; rewrite <- ?app_assoc; reflexivity|];
  split; [reflexivity|];
  split; [reflexivity|];
  split; [split; [discriminate | intros [url Hurl]; discriminate]|];
  split; [simpl; lia|];
  split; [try discriminate | discriminate].

Ltac shape_post2 pre last Hbearer :=
  eexists; exists pre, last;
  split; [reflexivity|];
  split; [simpl; rewrite <- ?app_assoc; reflexivity|];
  split; [reflexivity|];
  split; [reflexivity|];
  split; [split; [discriminate | intros [url Hurl]; discriminate]|];
  split; [simpl; lia|];
  split; [intros _; exact Hbearer | discriminate].

(** Every run of the handler, by the events it adds: the answer comes
    last, and what precedes it tells how far the provider protocol got. *)
Lemma handler_shape (s : Authenticator) (r : Request) (w : World) :
  exists (w' : World) (pre : list Event) (last : Event),
    oauth2RedirectPathHandler s r w = (Done tt, w')
    /\ trace w' = (trace w ++ pre ++ [last])%list
    /\ isAnswer last = true
    /\ existsb isAnswer pre = false
    /\ (existsb isSetCookie pre = true <->
        exists url, last = EvRedirect url StatusFound)
    /\ (List.length (filter isPostForm pre) <= 2)%nat
    /\ (List.length (filter isPostForm pre) = 2%nat ->
        exists (code : Z) (body : string) (tok : accessToken),
          network w (TokenURL (openID s)) (tokenRequestForm s r)
          = PostResponse code (Ok body)
          /\ code < 300
          /\ Unmarshal_accessToken body = Ok tok
          /\ at_TokenType tok = "Bearer"
          /\ at_AccessToken tok <> ""
          /\ filter isPostForm pre
             = [EvPostForm (TokenURL (openID s)) (tokenRequestForm s r);
                EvPostForm (UserinfoURL (openID s))
                  [("access_token", [at_AccessToken tok])]])
    /\ (existsb isSetCookie pre = true ->
        exists (tok : accessToken) (code : Z) (body : string)
               (u : openidConnectUserInfo) (c : oauth2StateJWT),
          network w (UserinfoURL (openID s))
            [("access_token", [at_AccessToken tok])]
          = PostResponse code (Ok body)
          /\ code < 300
          /\ Unmarshal_openidConnectUserInfo body = Ok u
          /\ fst (getVerifyReturnStateJWT s r w) = Done (c, None)
          /\ last = EvRedirect (st_ReturnURL c) StatusFound).
Proof.
  unfold oauth2RedirectPathHandler.
  destruct (String.eqb (Method r) "GET"); simpl.
  2:{ shape_reject (@nil Event)
        (EvHttpError "Invalid method" StatusMethodNotAllowed). }
  destruct (len_lt_1 (Values_Get (URL_Query (r_URL r)) "code")).
  { shape_reject [EvLog "null code"]
      (EvHttpError "null code" StatusUnauthorized). }
  unfold bind at 1.
  destruct (getVerifyReturnStateJWT_run s r w) as [n Hrun]. rewrite Hrun.
  destruct (stateVerdict s r w) as [c [err|]] eqn:Hverdict; cbn [fst snd].
  { shape_reject [EvLog "error processing state err: %s\n"]
      (EvHttpError "null or bad inboundState" StatusUnauthorized). }
  unfold bind at 1. fold (tokenRequestForm s r). rewrite post_run.
  change (network (tick n w)) with (network w).
  set (P1 := EvPostForm (TokenURL (openID s)) (tokenRequestForm s r)).
  assert (Hpost1 : forall e,
             exists (w' : World) (pre : list Event) (last : Event),
               (logPrintf "Error getting byes fom post err: %s" ;;;
                http_Error "bad transaction with openic context "
                  StatusInternalServerError) (emitted (tick n w) [P1])
               = (Done tt, w')
               /\ trace w' = (trace w ++ pre ++ [last])%list
               /\ isAnswer last = true
               /\ existsb isAnswer pre = false
               /\ (existsb isSetCookie pre = true <->
                   exists url, last = EvRedirect url StatusFound)
               /\ (List.length (filter isPostForm pre) <= 2)%nat
               /\ (List.length (filter isPostForm pre) = 2%nat -> e)
               /\ (existsb isSetCookie pre = true -> e)).
  { intros e.
    shape_reject [P1; EvLog "Error getting byes fom post err: %s"]
      (EvHttpError "bad transaction with openic context "
         StatusInternalServerError). }
  destruct (network w (TokenURL (openID s)) (tokenRequestForm s r))
    as [e1|code1 [body1|e1]] eqn:Hnet1.
  { destruct (Hpost1 False) as [w' [pre [last H]]].
    exists w', pre, last. intuition. }
  2:{ destruct (Hpost1 False) as [w' [pre [last H]]].
      exists w', pre, last. intuition. }
  destruct (code1 >=? 300) eqn:Hcode1.
  { destruct (Hpost1 False) as [w' [pre [last H]]].
    exists w', pre, last. intuition. }
  clear Hpost1.
  assert (Hlt1 : code1 < 300)
    by (rewrite Z.geb_leb in Hcode1; apply Z.leb_gt; exact Hcode1).
  destruct (Unmarshal_accessToken body1) as [tok|e] eqn:Htok.
  2:{ shape_reject [P1; EvLog body1]
        (EvHttpError "cannot decode oath2 response for token "
           StatusInternalServerError). }
  destruct (String.eqb (at_TokenType tok) "Bearer") eqn:Hty; simpl.
  2:{ shape_reject [P1; EvLog "token type invalid token=%s"]
        (EvHttpError "invalid accessToken " StatusInternalServerError). }
  apply String.eqb_eq in Hty.
  destruct (len_lt_1 (at_AccessToken tok)) eqn:Hat.
  { shape_reject [P1; EvLog "token type invalid token=%s"]
      (EvHttpError "invalid accessToken " StatusInternalServerError). }
  apply len_lt_1_false in Hat.
  unfold bind at 1. rewrite post_run.
  change (network (emitted (tick n w) _)) with (network w).
  set (P2 := EvPostForm (UserinfoURL (openID s))
               [("access_token", [at_AccessToken tok])]).
  assert (Hbearer :
            exists (code : Z) (body : string) (tok0 : accessToken),
              PostResponse code1 (Ok body1) = PostResponse code (Ok body)
              /\ code < 300
              /\ Unmarshal_accessToken body = Ok tok0
              /\ at_TokenType tok0 = "Bearer"
              /\ at_AccessToken tok0 <> ""
              /\ [P1; P2]
                 = [P1;
                    EvPostForm (UserinfoURL (openID s))
                      [("access_token", [at_AccessToken tok0])]]).
  { exists code1, body1, tok. repeat split; assumption || reflexivity. }
  assert (Hsecrets : sharedSecrets s <> []).
  { unfold stateVerdict in Hverdict.
    destruct (len_lt_1 _); [discriminate|].
    destruct (ParseSigned _) as [t|e]; [|discriminate].
    destruct (JWTClaims s Unmarshal_oauth2StateJWT t) as [c'|e] eqn:Hc;
      [|discriminate].
    destruct (JWTClaims_from_sound _ _ _ _ _ Hc) as [key [Hin _]].
    intros Hnil. rewrite Hnil in Hin. destruct Hin. }
  destruct (network w (UserinfoURL (openID s))
              [("access_token", [at_AccessToken tok])])
    as [e2|code2 [body2|e2]] eqn:Hnet2.
  { shape_post2 [P1; P2; EvLog "%v"]
      (EvHttpError "bad transaction with openic context "
         StatusInternalServerError) Hbearer. }
  2:{ shape_post2 [P1; P2; EvLog "%v"]
        (EvHttpError "bad transaction with openic context "
           StatusInternalServerError) Hbearer. }
  destruct (code2 >=? 300) eqn:Hcode2.
  { shape_post2 [P1; P2; EvLog "%v"]
      (EvHttpError "bad transaction with openic context "
         StatusInternalServerError) Hbearer. }
  assert (Hlt2 : code2 < 300)
    by (rewrite Z.geb_leb in Hcode2; apply Z.leb_gt; exact Hcode2).
  destruct (Unmarshal_openidConnectUserInfo body2) as [u|e] eqn:Hu.
  2:{ shape_post2 [P1; P2; EvLog "Error unmarshalling userinfo "]
        (EvHttpError "cannot decode oath2 userinfo token "
           StatusInternalServerError) Hbearer. }
  unfold bind at 1.
  unfold setAndStoreAuthCookie, genUserCookieValue, bind, time_Now, index0,
    panic, ret, logPrintf, http_SetCookie, http_Error, http_Redirect, emit.
  destruct (sharedSecrets s) as [|k rest]; [contradiction|]. simpl.
  destruct (len_lt_1 k); simpl.
  { shape_post2 [P1; P2; EvLog "%v"]
      (EvHttpError "cannot set auth Cookie" StatusInternalServerError)
      Hbearer. }
  destruct (NewSigner k) as [sig|e]; simpl.
  2:{ shape_post2 [P1; P2; EvLog "New jose signer error err: %s"; EvLog "%v"]
        (EvHttpError "cannot set auth Cookie" StatusInternalServerError)
        Hbearer. }
  eexists.
  eexists [P1; P2; EvSetCookie _].
  exists (EvRedirect (st_ReturnURL c) StatusFound).
  split; [reflexivity|].
  split; [simpl; rewrite <- ?app_assoc; reflexivity|].
  split; [reflexivity|].
  split; [reflexivity|].
  split; [split; [intros _; eexists; reflexivity | intros _; reflexivity]|].
  split; [simpl; lia|].
  split; [intros _; exact Hbearer|].
  intros _. exists tok, code2, body2, u, c.
  repeat split; assumption || reflexivity.
Qed.

Lemma filter_posts_answer_last (pre : list Event) (last : Event) :
  isAnswer last = true ->
  filter isPostForm (pre ++ [last]) = filter isPostForm pre
  /\ existsb isSetCookie (pre ++ [last]) = existsb isSetCookie pre.
Proof.
  intros Hlast. rewrite filter_app, existsb_app.
  destruct last; try discriminate; simpl;
    rewrite app_nil_r, orb_false_r; split; reflexivity.
Qed.

(** X13. The callback handler always answers, once: it never panics,
    and the events it adds end with exactly one answer (an error page or
    a redirect) that nothing follows; a session cookie is set in a run
    exactly when that answer is a 302 redirect. *)
Theorem oauth2RedirectPathHandler_answers_once :
  forall (s : Authenticator) (r : Request) (w : World),
    exists (w' : World) (pre : list Event) (last : Event),
      oauth2RedirectPathHandler s r w = (Done tt, w')
      /\ trace w' = (trace w ++ pre ++ [last])%list
      /\ isAnswer last = true
      /\ existsb isAnswer pre = false
      /\ (existsb isSetCookie pre = true <->
          exists url, last = EvRedirect url StatusFound).
Proof.
  intros s r w.
  destruct (handler_shape s r w)
    as [w' [pre [last [Hrun [Htr [Hans [Hpre [Hck _]]]]]]]].
  exists w', pre, last. repeat split; try assumption; apply Hck.
Qed.

(** X14. Provider calls are gated by a Bearer token: a run of the handler
    calls the provider at most twice, and a second call is made only when
    the token endpoint answered below 300 with a body that decodes to a
    token whose type is exactly "Bearer" and whose access token is not
    empty; the two calls are then the token exchange followed by the
    userinfo fetch with that access token. *)
Theorem oauth2RedirectPathHandler_bearer_gate :
  forall (s : Authenticator) (r : Request) (w : World) (evs : list Event),
    trace (snd (oauth2RedirectPathHandler s r w)) = (trace w ++ evs)%list ->
    (List.length (filter isPostForm evs) <= 2)%nat
    /\ (List.length (filter isPostForm evs) = 2%nat ->
        exists (code : Z) (body : string) (tok : accessToken),
          network w (TokenURL (openID s)) (tokenRequestForm s r)
          = PostResponse code (Ok body)
          /\ code < 300
          /\ Unmarshal_accessToken body = Ok tok
          /\ at_TokenType tok = "Bearer"
          /\ at_AccessToken tok <> ""
          /\ filter isPostForm evs
             = [EvPostForm (TokenURL (openID s)) (tokenRequestForm s r);
                EvPostForm (UserinfoURL (openID s))
                  [("access_token", [at_AccessToken tok])]]).
Proof.
  intros s r w evs Htrace.
  destruct (handler_shape s r w)
    as [w' [pre [last [Hrun [Htr [Hans [_ [_ [Hle [Htwo _]]]]]]]]]].
  rewrite Hrun in Htrace. simpl in Htrace. rewrite Htr in Htrace.
  apply app_inv_head in Htrace. subst evs.
  destruct (filter_posts_answer_last pre last Hans) as [Hf _].
  rewrite Hf. split; [exact Hle | exact Htwo].
Qed.

(** X15. A cookie is set only at the end of a complete exchange: when a
    run of the handler sets a session cookie, the state token of the
    request had validated, the userinfo endpoint had answered below 300
    with a body that decodes, and the run ends with the 302 redirect to
    the return URL carried by that state token. *)
Theorem oauth2RedirectPathHandler_cookie_only_after_userinfo :
  forall (s : Authenticator) (r : Request) (w : World) (evs : list Event),
    trace (snd (oauth2RedirectPathHandler s r w)) = (trace w ++ evs)%list ->
    existsb isSetCookie evs = true ->
    exists (tok : accessToken) (code : Z) (body : string)
           (u : openidConnectUserInfo) (c : oauth2StateJWT)
           (pre : list Event),
      network w (UserinfoURL (openID s))
        [("access_token", [at_AccessToken tok])]
      = PostResponse code (Ok body)
      /\ code < 300
      /\ Unmarshal_openidConnectUserInfo body = Ok u
      /\ fst (getVerifyReturnStateJWT s r w) = Done (c, None)
      /\ evs = (pre ++ [EvRedirect (st_ReturnURL c) StatusFound])%list.
Proof.
  intros s r w evs Htrace Hck.
  destruct (handler_shape s r w)
    as [w' [pre [last [Hrun [Htr [Hans [_ [_ [_ [_ Hcookie]]]]]]]]]].
  rewrite Hrun in Htrace. simpl in Htrace. rewrite Htr in Htrace.
  apply app_inv_head in Htrace. subst evs.
  destruct (filter_posts_answer_last pre last Hans) as [_ He].
  rewrite He in Hck.
  destruct (Hcookie Hck) as [tok [code [body [u [c [H1 [H2 [H3 [H4 H5]]]]]]]]].
  exists tok, code, body, u, c, pre. subst last.
  repeat split; assumption.
Qed.

End Callback.

(** *** Identity resolution through the cookie *)

Section Resolve.
Context {L : GoLibs} {K : PkgConsts}.

(** The run of cookie validation, world included. *)
Lemma validateUserCookieValue_world (s : Authenticator) (v : string)
    (w : World) :
  exists (n : nat) (logs : list Event),
    validateUserCookieValue s v w
    = (Done (cookieVerdict s v w), emitted (tick n w) logs)
    /\ (cookieVerdict s v w = ("", None) ->
        exists format, logs = [EvLog format])
    /\ (cookieVerdict s v w <> ("", None) -> n = 2%nat /\ logs = []).
Proof.
  unfold validateUserCookieValue, cookieVerdict.
  assert (Hrej : forall (format : string) (n : nat) (w' : World),
             w' = tick n w ->
             exists (m : nat) (logs : list Event),
               (logPrintf format ;;; ret ("", @None error)) w'
               = (Done ("", @None error), emitted (tick m w) logs)
               /\ (("", @None error) = ("", @None error) ->
                   exists format, logs = [EvLog format])
               /\ (("", @None error) <> ("", @None error) ->
                   m = 2%nat /\ logs = [])).
  { intros format n w' ->. exists n, [EvLog format].
    split; [reflexivity|]. split.
    - intros _. exists format. reflexivity.
    - intros H. exfalso. apply H. reflexivity. }
  destruct (len_lt_1 v).
  { apply (Hrej _ 0%nat). symmetry. apply tick_0. }
  destruct (ParseSigned v) as [tok|e].
  2:{ apply (Hrej _ 0%nat). symmetry. apply tick_0. }
  destruct (JWTClaims s Unmarshal_authNCookieJWT tok) as [c|e].
  2:{ apply (Hrej _ 0%nat). symmetry. apply tick_0. }
  unfold bind at 1.
  destruct (window_check_cost (appName s) ("state:" ++ AuthCookieName)
              (ck_Issuer c) (ck_Subject c) (ck_NotBefore c)
              (ck_Expiration c) w) as [n [Hn [Hle Htwo]]].
  rewrite Hn.
  destruct (claimsInWindow _ _ _ _ _ _ w); simpl.
  - specialize (Htwo eq_refl). subst n.
    destruct (len_lt_1 (ck_Username c)) eqn:Hu.
    + exists 2%nat, []. rewrite emitted_nil.
      split; [reflexivity|]. split; [discriminate|].
      intros _. split; reflexivity.
    + exists 2%nat, []. rewrite emitted_nil.
      split; [reflexivity|]. split.
      * intros H. injection H as H. apply len_lt_1_false in Hu.
        contradiction.
      * intros _. split; reflexivity.
  - apply (Hrej _ n). reflexivity.
Qed.

Lemma no_chain_cases (r : Request) :
  hasVerifiedChain r = false ->
  TLS r = None \/ exists tls, TLS r = Some tls /\ VerifiedChains tls = [].
Proof.
  unfold hasVerifiedChain. destruct (TLS r) as [tls|]; [|left; reflexivity].
  destruct (VerifiedChains tls) eqn:Hc; [|discriminate].
  intros _. right. exists tls. split; [reflexivity | exact Hc].
Qed.

(** Without a verified chain, and with no header hook, identity
    resolution is the cookie path. *)
Lemma getRemoteUserName_cookie_path (s : Authenticator) (r : Request)
    (w : World) :
  hasVerifiedChain r = false ->
  setHeadersFunc s = None ->
  getRemoteUserName s r w =
  match Request_Cookie (Cookies r) AuthCookieName with
  | Err err =>
      (oauth2DoRedirectoToProviderHandler s r ;;; ret ("", Some err)) w
  | Ok remoteCookieValue =>
      (v <- validateUserCookieValue s remoteCookieValue ;;
       match snd v with
       | Some err =>
           http_Error "bad transaction with openic context "
             StatusInternalServerError ;;;
           ret ("", Some err)
       | None =>
           if String.eqb (fst v) "" then
             logPrintf "invalid Cookie Value" ;;;
             oauth2DoRedirectoToProviderHandler s r ;;;
             ret ("", Some (errors_New "Invalid Cookie Value"))
           else ret (fst v, None)
       end) w
  end.
Proof.
  intros Hno Hhook. unfold getRemoteUserName. rewrite Hhook.
  destruct (no_chain_cases r Hno) as [Htls|[tls [Htls Hc]]];
    rewrite Htls; [|rewrite Hc; simpl];
    unfold bind at 1; simpl;
    destruct (Request_Cookie (Cookies r) AuthCookieName); reflexivity.
Qed.

(** X16. What an identity means: when [getRemoteUserName] returns a nil
    error, either the connection carries a verified chain and the name is
    its leaf's common name, or the name is not empty and is what cookie
    validation returned, with a nil error, for the request's session
    cookie (in the world the header hook left); and a non-nil error always
    comes with the empty name. *)
Theorem getRemoteUserName_sound :
  forall (s : Authenticator) (r : Request) (w : World) (u : string)
         (err : option error),
    fst (getRemoteUserName s r w) = Done (u, err) ->
    (err <> None -> u = "")
    /\ (err = None ->
        (exists tls leaf chain chains,
            TLS r = Some tls
            /\ VerifiedChains tls = (leaf :: chain) :: chains
            /\ u = Subject_CommonName leaf)
        \/ (u <> ""
            /\ exists (v : string) (w1 : World),
                 Request_Cookie (Cookies r) AuthCookieName = Ok v
                 /\ match setHeadersFunc s with
                    | Some hook => hook w = (Done None, w1)
                    | None => w1 = w
                    end
                 /\ fst (validateUserCookieValue s v w1) = Done (u, None))).
Proof.
  intros s r w u err H. unfold getRemoteUserName in H.
  assert (Hcookie :
    forall w1,
      match setHeadersFunc s with
      | Some hook => hook w = (Done None, w1)
      | None => w1 = w
      end ->
      fst (match Request_Cookie (Cookies r) AuthCookieName with
           | Err err =>
               (oauth2DoRedirectoToProviderHandler s r ;;; ret ("", Some err))
           | Ok remoteCookieValue =>
               (v <- validateUserCookieValue s remoteCookieValue ;;
                match snd v with
                | Some err =>
                    http_Error "bad transaction with openic context "
                      StatusInternalServerError ;;;
                    ret ("", Some err)
                | None =>
                    if String.eqb (fst v) "" then
                      logPrintf "invalid Cookie Value" ;;;
                      oauth2DoRedirectoToProviderHandler s r ;;;
                      ret ("", Some (errors_New "Invalid Cookie Value"))
                    else ret (fst v, None)
                end)
           end w1) = Done (u, err) ->
      (err <> None -> u = "")
      /\ (err = None ->
          u <> ""
          /\ exists (v : string) (w1 : World),
               Request_Cookie (Cookies r) AuthCookieName = Ok v
               /\ match setHeadersFunc s with
                  | Some hook => hook w = (Done None, w1)
                  | None => w1 = w
                  end
               /\ fst (validateUserCookieValue s v w1) = Done (u, None))).
  { intros w1 Hhook Hres.
    destruct (Request_Cookie (Cookies r) AuthCookieName) as [v|e0].
    - unfold bind at 1 in Hres.
      destruct (validateUserCookieValue_world s v w1) as [n [logs [Hv _]]].
      rewrite Hv in Hres.
      destruct (cookieVerdict s v w1) as [name [e1|]] eqn:Hverdict;
        cbn [fst snd] in Hres.
      + unfold bind, http_Error, emit, ret in Hres. simpl in Hres.
        injection Hres as <- <-. split; [reflexivity | discriminate].
      + destruct (String.eqb name "") eqn:Hname.
        * unfold bind at 1 in Hres. simpl in Hres. unfold bind at 1 in Hres.
          destruct (oauth2DoRedirectoToProviderHandler s r _) as [[[]|msg] w2];
            simpl in Hres; [|discriminate].
          injection Hres as <- <-. split; [reflexivity | discriminate].
        * simpl in Hres. injection Hres as <- <-.
          apply String.eqb_neq in Hname.
          split; [intros Hne; exfalso; apply Hne; reflexivity|].
          intros _. split; [exact Hname|]. exists v, w1.
          split; [reflexivity|]. split; [exact Hhook|].
          rewrite Hv. reflexivity.
    - unfold bind at 1 in Hres.
      destruct (oauth2DoRedirectoToProviderHandler s r w1) as [[[]|msg] w2];
        simpl in Hres; [|discriminate].
      injection Hres as <- <-. split; [reflexivity | discriminate]. }
  assert (Hvia :
    fst ((hdrErr <-
            match setHeadersFunc s with
            | Some setHeaders => setHeaders
            | None => ret None
            end ;;
          match hdrErr with
          | Some err => ret ("", Some err)
          | None =>
              match Request_Cookie (Cookies r) AuthCookieName with
              | Err err =>
                  oauth2DoRedirectoToProviderHandler s r ;;;
                  ret ("", Some err)
              | Ok remoteCookieValue =>
                  v <- validateUserCookieValue s remoteCookieValue ;;
                  match snd v with
                  | Some err =>
                      http_Error "bad transaction with openic context "
                        StatusInternalServerError ;;;
                      ret ("", Some err)
                  | None =>
                      if String.eqb (fst v) "" then
                        logPrintf "invalid Cookie Value" ;;;
                        oauth2DoRedirectoToProviderHandler s r ;;;
                        ret ("", Some (errors_New "Invalid Cookie Value"))
                      else ret (fst v, None)
                  end
              end
          end) w) = Done (u, err) ->
    (err <> None -> u = "")
    /\ (err = None ->
        u <> ""
        /\ exists (v : string) (w1 : World),
             Request_Cookie (Cookies r) AuthCookieName = Ok v
             /\ match setHeadersFunc s with
                | Some hook => hook w = (Done None, w1)
                | None => w1 = w
                end
             /\ fst (validateUserCookieValue s v w1) = Done (u, None))).
  { intros Hres. unfold bind at 1 in Hres.
    destruct (setHeadersFunc s) as [hook|] eqn:Hhook.
    - destruct (hook w) as [[[e0|]|msg] w1] eqn:Hrun.
      + simpl in Hres. injection Hres as <- <-.
        split; [reflexivity | discriminate].
      + apply (Hcookie w1); [reflexivity | exact Hres].
      + simpl in Hres. discriminate.
    - apply (Hcookie w); [reflexivity | exact Hres]. }
  destruct (TLS r) as [tls|] eqn:Htls.
  - destruct (VerifiedChains tls) as [|chain0 chains] eqn:Hchains.
    + simpl in H. destruct (Hvia H) as [H1 H2].
      split; [exact H1|]. intros He. right. apply H2. exact He.
    + simpl in H. unfold bind at 1 in H. simpl in H.
      destruct chain0 as [|leaf chain]; simpl in H; [discriminate|].
      injection H as <- <-. split; [intros Hne; exfalso; apply Hne; reflexivity|].
      intros _. left. exists tls, leaf, chain, chains.
      repeat split; reflexivity || assumption.
  - destruct (Hvia H) as [H1 H2].
    split; [exact H1|]. intros He. right. apply H2. exact He.
Qed.

End Resolve.

Section ResolveCases.
Context {L : GoLibs} {K : PkgConsts}.

Lemma verdict_of_result (s : Authenticator) (v : string) (w : World)
    (res : string * option error) :
  fst (validateUserCookieValue s v w) = Done res -> cookieVerdict s v w = res.
Proof.
  rewrite validateUserCookieValue_run. intros H. injection H as H. exact H.
Qed.

Lemma valid_cookie_resolves :
  forall (s : Authenticator) (r : Request) (w : World) (v u : string),
    hasVerifiedChain r = false ->
    setHeadersFunc s = None ->
    Request_Cookie (Cookies r) AuthCookieName = Ok v ->
    fst (validateUserCookieValue s v w) = Done (u, None) ->
    u <> "" ->
    getRemoteUserName s r w = (Done (u, None), tick 2 w).
Proof.
  intros s r w v u Hno Hhook Hck Hval Hu.
  rewrite (getRemoteUserName_cookie_path s r w Hno Hhook), Hck.
  apply verdict_of_result in Hval.
  destruct (validateUserCookieValue_world s v w) as [n [logs [Hrun [_ Hacc]]]].
  rewrite Hval in Hrun, Hacc.
  destruct Hacc as [-> ->].
  { intros H. injection H as H. contradiction. }
  unfold bind at 1. rewrite Hrun. cbn [fst snd].
  apply String.eqb_neq in Hu. rewrite Hu. rewrite emitted_nil. reflexivity.
Qed.

(** X17. An authenticated request is left alone: without a verified
    chain and without a header hook, a request whose session cookie
    validates to a non-empty username gets that username with a nil error,
    and nothing is logged or written to the response; only the clock was
    read, twice. *)
Theorem getRemoteUserName_valid_cookie :
  forall (s : Authenticator) (r : Request) (w : World) (v u : string),
    hasVerifiedChain r = false ->
    setHeadersFunc s = None ->
    Request_Cookie (Cookies r) AuthCookieName = Ok v ->
    fst (validateUserCookieValue s v w) = Done (u, None) ->
    u <> "" ->
    getRemoteUserName s r w = (Done (u, None), tick 2 w).
Proof. exact valid_cookie_resolves. Qed.


(** X21. A failing header hook ends the resolution: without a verified
    chain, when the configured header hook returns an error,
    [getRemoteUserName] returns that error with the empty name in the
    world the hook left; the cookie is not validated, nothing is written
    and there is no redirect. *)
Theorem getRemoteUserName_hook_error :
  forall (s : Authenticator) (r : Request) (w w1 : World)
         (hook : M (option error)) (e : error),
    hasVerifiedChain r = false ->
    setHeadersFunc s = Some hook ->
    hook w = (Done (Some e), w1) ->
    getRemoteUserName s r w = (Done ("", Some e), w1).
Proof.
  intros s r w w1 hook e Hno Hhook Hrun. unfold getRemoteUserName.
  rewrite Hhook.
  destruct (no_chain_cases r Hno) as [Htls|[tls [Htls Hc]]];
    rewrite Htls; [|rewrite Hc; simpl];
    unfold bind at 1; rewrite Hrun; reflexivity.
Qed.

(** X22. A connection without a verified chain counts as no client
    certificate: a request over TLS whose list of verified chains is empty
    is resolved exactly as the same request without TLS. *)
Theorem getRemoteUserName_no_chain_is_no_tls :
  forall (s : Authenticator) (r : Request) (w : World),
    hasVerifiedChain r = false ->
    getRemoteUserName s r w = getRemoteUserName s (withTLS r None) w.
Proof.
  intros s r w Hno. unfold getRemoteUserName, withTLS. simpl.
  destruct (no_chain_cases r Hno) as [Htls|[tls [Htls Hc]]];
    rewrite Htls; [|rewrite Hc; simpl]; reflexivity.
Qed.

Hypothesis laws : LibLaws L.

Lemma Request_Cookie_error (cs : list (string * string)) (name : string)
    (e : error) :
  Request_Cookie cs name = Err e -> e = ErrNoCookie.
Proof.
  induction cs as [|[n v] cs IH]; simpl.
  - intros H. injection H as <-. reflexivity.
  - destruct (String.eqb n name); [discriminate | exact IH].
Qed.

Lemma redirect_run (s : Authenticator) (r : Request) (w : World)
    (key : string) (rest : list string) :
  sharedSecrets s = key :: rest ->
  key <> "" ->
  oauth2DoRedirectoToProviderHandler s r w =
  (Done tt,
   emitted (tick 1 w)
     [EvRedirect
        (generateAuthCodeURL s
           (CompactSerialize
              (Sign key (Marshal_oauth2StateJWT (stateClaims s r w)))) r)
        StatusFound]).
Proof.
  intros Hs Hk. unfold oauth2DoRedirectoToProviderHandler, bind.
  rewrite (generateValidStateString_run laws s r w key rest Hs Hk).
  reflexivity.
Qed.

(** X18. No cookie, so to the provider: without a verified chain and
    without a header hook, a request that carries no session cookie is
    answered with one 302 redirect to the authorization URL, whose state is
    a token freshly signed for this request with the first secret, and
    [getRemoteUserName] returns the empty name with the no-cookie error. *)
Theorem getRemoteUserName_no_cookie :
  forall (s : Authenticator) (r : Request) (w : World) (key : string)
         (rest : list string) (e : error),
    hasVerifiedChain r = false ->
    setHeadersFunc s = None ->
    Request_Cookie (Cookies r) AuthCookieName = Err e ->
    sharedSecrets s = key :: rest ->
    key <> "" ->
    getRemoteUserName s r w =
    (Done ("", Some ErrNoCookie),
     emitted (tick 1 w)
       [EvRedirect
          (generateAuthCodeURL s
             (CompactSerialize
                (Sign key (Marshal_oauth2StateJWT (stateClaims s r w)))) r)
          StatusFound]).
Proof.
  intros s r w key rest e Hno Hhook Hck Hs Hk.
  rewrite (getRemoteUserName_cookie_path s r w Hno Hhook), Hck.
  apply Request_Cookie_error in Hck. subst e.
  unfold bind at 1. rewrite (redirect_run s r w key rest Hs Hk). reflexivity.
Qed.

(** X19. A cookie that does not validate is treated as no login: without
    a verified chain and without a header hook, when cookie validation
    returns the empty username with a nil error, the request is answered,
    after two log lines, with the same 302 redirect to the provider as a
    request without cookie, and [getRemoteUserName] returns the empty name
    with the "Invalid Cookie Value" error. *)
Theorem getRemoteUserName_rejected_cookie :
  forall (s : Authenticator) (r : Request) (w : World) (v : string)
         (key : string) (rest : list string),
    hasVerifiedChain r = false ->
    setHeadersFunc s = None ->
    Request_Cookie (Cookies r) AuthCookieName = Ok v ->
    fst (validateUserCookieValue s v w) = Done ("", None) ->
    sharedSecrets s = key :: rest ->
    key <> "" ->
    exists (n : nat) (format : string),
      getRemoteUserName s r w =
      (Done ("", Some (errors_New "Invalid Cookie Value")),
       emitted (tick (S n) w)
         [EvLog format;
          EvLog "invalid Cookie Value";
          EvRedirect
            (generateAuthCodeURL s
               (CompactSerialize
                  (Sign key
                     (Marshal_oauth2StateJWT (stateClaims s r (tick n w)))))
               r)
            StatusFound]).
Proof.
  intros s r w v key rest Hno Hhook Hck Hval Hs Hk.
  rewrite (getRemoteUserName_cookie_path s r w Hno Hhook), Hck.
  apply verdict_of_result in Hval.
  destruct (validateUserCookieValue_world s v w) as [n [logs [Hrun [Hrej _]]]].
  rewrite Hval in Hrun. destruct (Hrej Hval) as [format ->].
  exists n, format.
  unfold bind at 1. rewrite Hrun. cbn [fst snd]. simpl.
  unfold bind at 1. simpl. unfold bind at 1.
  rewrite (redirect_run s r _ key rest Hs Hk).
  unfold emitted, tick, stateClaims. simpl. rewrite <- !app_assoc.
  reflexivity.
Qed.

End ResolveCases.

(** *** A whole login *)

Section LoginFlow.
Context {L : GoLibs} {K : PkgConsts}.
Hypothesis laws : LibLaws L.





End LoginFlow.

(** *** The further properties on the concrete deployment *)

Module FlowFacts.
Import Reference Scenario Flow.

Lemma JWTClaims_sound_witness :
  (exists key,
      In key (sharedSecrets auth)
      /\ HS256 key (protected garbled) (payload garbled) = signature garbled
      /\ Ok (payload garbled) = Ok "not a claims object")
  /\ sharedSecrets auth <> [].
Proof.
  apply (@JWTClaims_sound Libs string (fun b => Ok b) auth garbled
           "not a claims object").
  vm_compute. reflexivity.
Defined.

Lemma validateUserCookieValue_sound_witness :
  exists (tok : JSONWebToken) (key : string) (c : authNCookieJWT),
    ParseSigned cookie = Ok tok
    /\ In key (sharedSecrets auth)
    /\ HS256 key (protected tok) (payload tok) = signature tok
    /\ Unmarshal_authNCookieJWT (payload tok) = Ok c
    /\ ck_Username c = "alice"
    /\ ck_Issuer c = appName auth
    /\ ck_Subject c = "state:" ++ AuthCookieName
    /\ ck_NotBefore c <= Unix (clock (world 2000 alice) 0)
    /\ Unix (clock (world 2000 alice) 1) <= ck_Expiration c.
Proof.
  apply (@validateUserCookieValue_sound Libs Consts auth cookie
           (world 2000 alice) "alice").
  - vm_compute. reflexivity.
  - discriminate.
Defined.

Lemma getVerifyReturnStateJWT_sound_witness :
  exists (tok : JSONWebToken) (key : string),
    Values_Get (URL_Query (r_URL callback)) "state" <> ""
    /\ ParseSigned (Values_Get (URL_Query (r_URL callback)) "state") = Ok tok
    /\ In key (sharedSecrets auth)
    /\ HS256 key (protected tok) (payload tok) = signature tok
    /\ Unmarshal_oauth2StateJWT (payload tok)
       = Ok (stateClaims auth protectedRequest (world 1000 alice))
    /\ st_Issuer (stateClaims auth protectedRequest (world 1000 alice))
       = appName auth
    /\ st_Subject (stateClaims auth protectedRequest (world 1000 alice))
       = "state:" ++ redirCookieName
    /\ st_NotBefore (stateClaims auth protectedRequest (world 1000 alice))
       <= Unix (clock (world 1100 alice) 0)
    /\ Unix (clock (world 1100 alice) 1)
       <= st_Expiration (stateClaims auth protectedRequest (world 1000 alice)).
Proof.
  apply (@getVerifyReturnStateJWT_sound Libs auth callback
           (world 1100 alice)
           (stateClaims auth protectedRequest (world 1000 alice))).
  vm_compute. reflexivity.
Defined.

Lemma issued_cookie_verdict_witness :
  exists c : string,
    fst (genUserCookieValue authOld "alice" expires (world 1000 alice))
    = Done (c, None)
    /\ fst (validateUserCookieValue auth c (world 9000 alice))
       = Done ("", None).
Proof.
  destruct (@issued_cookie_verdict Libs Consts ReferenceFacts.Libs_laws
              authOld auth "alice" expires (world 1000 alice)
              (world 9000 alice) "k-old" [])
    as [c [Hissue Hval]].
  - discriminate.
  - reflexivity.
  - discriminate.
  - right. left. reflexivity.
  - exists c. split; [exact Hissue | exact Hval].
Defined.

Lemma state_token_round_trip_witness :
  exists (stateString : string) (c : oauth2StateJWT),
    fst (generateValidStateString auth protectedRequest (world 1000 alice))
    = Done (stateString, None)
    /\ st_ReturnURL c = "/protected"
    /\ (Values_Get (URL_Query (r_URL callback)) "state" = stateString ->
        fst (getVerifyReturnStateJWT auth callback (world 1301 alice))
        = Done (c, Some (errors_New "invalid JWT values"))).
Proof.
  apply (@state_token_round_trip Libs ReferenceFacts.Libs_laws
           auth auth protectedRequest callback (world 1000 alice)
           (world 1301 alice) "k-new" ["k-old"]).
  - reflexivity.
  - discriminate.
  - left. reflexivity.
  - reflexivity.
  - vm_compute. split; [discriminate | reflexivity].
Defined.

Lemma setAndStoreAuthCookie_sets_session_cookie_witness :
  exists c : Cookie,
    setAndStoreAuthCookie auth "alice" (world 1000 alice)
    = (Done None, emitted (tick 2 (world 1000 alice)) [EvSetCookie c])
    /\ c_Path c = "/" /\ c_HttpOnly c = true /\ c_Secure c = true
    /\ Unix (c_Expires c) = 8200.
Proof.
  destruct (@setAndStoreAuthCookie_sets_session_cookie Libs Consts
              ReferenceFacts.Libs_laws auth "alice" (world 1000 alice)
              "k-new" ["k-old"] eq_refl)
    as [c [tok [claims [Hrun [_ [Hp [Hh [Hs [He _]]]]]]]]].
  - discriminate.
  - exists c. repeat split; assumption.
Defined.

Lemma cookie_set_validates_for_two_hours_witness :
  exists c : Cookie,
    setAndStoreAuthCookie auth "alice" (world 1000 alice)
    = (Done None, emitted (tick 2 (world 1000 alice)) [EvSetCookie c])
    /\ fst (validateUserCookieValue auth (c_Value c) (world 8200 alice))
       = Done ("alice", None).
Proof.
  apply (@cookie_set_validates_for_two_hours Libs Consts
           ReferenceFacts.Libs_laws auth "alice" (world 1000 alice)
           (world 8200 alice) "k-new" ["k-old"]).
  - discriminate.
  - reflexivity.
  - discriminate.
  - vm_compute. discriminate.
  - vm_compute. discriminate.
Defined.

Lemma setAndStoreAuthCookie_error_sets_nothing_witness :
  exists logs : list Event,
    trace (tick 1 (world 1000 alice))
    = (trace (world 1000 alice) ++ logs)%list
    /\ forallb isLog logs = true.
Proof.
  apply (@setAndStoreAuthCookie_error_sets_nothing Libs Consts
           emptyFirstSecret "alice" (world 1000 alice)
           (tick 1 (world 1000 alice))
           (errors_New "invalid authenticator state, no shared secrets")).
  reflexivity.
Defined.

Lemma oauth2DoRedirectoToProviderHandler_outcomes_witness :
  oauth2DoRedirectoToProviderHandler emptyFirstSecret protectedRequest
    (world 1000 alice)
  = (Done tt,
     emitted (world 1000 alice)
       [EvLog "Error from generateValidStateString err: %s\n";
        EvHttpError "Internal Error " StatusInternalServerError]).
Proof.
  apply (proj2 (@oauth2DoRedirectoToProviderHandler_outcomes Libs Consts
                  ReferenceFacts.Libs_laws emptyFirstSecret protectedRequest
                  (world 1000 alice) "" ["k-old"] eq_refl)).
  reflexivity.
Defined.

Lemma oauth2RedirectPathHandler_bearer_gate_witness :
  (List.length
     (filter isPostForm
        (trace (snd (oauth2RedirectPathHandler auth callback
                       (world 1100 alice))))) <= 2)%nat.
Proof.
  apply (proj1 (@oauth2RedirectPathHandler_bearer_gate Libs Consts auth
                  callback (world 1100 alice)
                  (trace (snd (oauth2RedirectPathHandler auth callback
                                 (world 1100 alice))))
                  eq_refl)).
Defined.

Lemma oauth2RedirectPathHandler_cookie_only_after_userinfo_witness :
  exists (c : oauth2StateJWT) (pre : list Event),
    fst (getVerifyReturnStateJWT auth callback (world 1100 alice))
    = Done (c, None)
    /\ trace (snd (oauth2RedirectPathHandler auth callback
                     (world 1100 alice)))
       = (pre ++ [EvRedirect (st_ReturnURL c) StatusFound])%list.
Proof.
  destruct (@oauth2RedirectPathHandler_cookie_only_after_userinfo Libs Consts
              auth callback (world 1100 alice)
              (trace (snd (oauth2RedirectPathHandler auth callback
                             (world 1100 alice)))))
    as [tok [code [body [u [c [pre [_ [_ [_ [Hst Hevs]]]]]]]]]].
  - reflexivity.
  - vm_compute. reflexivity.
  - exists c, pre. split; [exact Hst | exact Hevs].
Defined.

Lemma getRemoteUserName_sound_witness :
  "alice" <> ""
  /\ exists (v : string) (w1 : World),
       Request_Cookie (Cookies loggedIn) AuthCookieName = Ok v
       /\ w1 = world 2000 alice
       /\ fst (validateUserCookieValue auth v w1) = Done ("alice", None).
Proof.
  destruct (@getRemoteUserName_sound Libs Consts auth loggedIn
              (world 2000 alice) "alice" None) as [_ H].
  - vm_compute. reflexivity.
  - destruct (H eq_refl) as [[tls [leaf [chain [chains [Htls _]]]]]|Hc].
    + discriminate Htls.
    + exact Hc.
Defined.

Lemma getRemoteUserName_valid_cookie_witness :
  getRemoteUserName auth loggedIn (world 2000 alice)
  = (Done ("alice", None), tick 2 (world 2000 alice)).
Proof.
  apply (@getRemoteUserName_valid_cookie Libs Consts auth loggedIn
           (world 2000 alice) cookie "alice").
  - reflexivity.
  - reflexivity.
  - reflexivity.
  - vm_compute. reflexivity.
  - discriminate.
Defined.


Lemma getRemoteUserName_hook_error_witness :
  getRemoteUserName authHook loggedIn (world 2000 alice)
  = (Done ("", Some (errors_New "cannot set headers")),
     emitted (world 2000 alice) [EvSetHeaders]).
Proof.
  apply (@getRemoteUserName_hook_error Libs Consts authHook loggedIn
           (world 2000 alice) (emitted (world 2000 alice) [EvSetHeaders])
           failingHook (errors_New "cannot set headers")).
  - reflexivity.
  - reflexivity.
  - reflexivity.
Defined.

Lemma getRemoteUserName_no_chain_is_no_tls_witness :
  getRemoteUserName auth noChainRequest (world 1000 alice)
  = getRemoteUserName auth (withTLS noChainRequest None) (world 1000 alice).
Proof.
  apply (@getRemoteUserName_no_chain_is_no_tls Libs Consts auth
           noChainRequest (world 1000 alice)).
  reflexivity.
Defined.

Lemma getRemoteUserName_no_cookie_witness :
  getRemoteUserName auth protectedRequest (world 1000 alice)
  = (Done ("", Some ErrNoCookie),
     emitted (tick 1 (world 1000 alice))
       [EvRedirect
          (generateAuthCodeURL auth
             (CompactSerialize
                (Sign "k-new"
                   (Marshal_oauth2StateJWT
                      (stateClaims auth protectedRequest
                         (world 1000 alice))))) protectedRequest)
          StatusFound]).
Proof.
  apply (@getRemoteUserName_no_cookie Libs Consts ReferenceFacts.Libs_laws
           auth protectedRequest (world 1000 alice) "k-new" ["k-old"]
           ErrNoCookie).
  - reflexivity.
  - reflexivity.
  - reflexivity.
  - reflexivity.
  - discriminate.
Defined.

Lemma getRemoteUserName_rejected_cookie_witness :
  exists (n : nat) (format : string),
    getRemoteUserName auth loggedIn (world 9000 alice) =
    (Done ("", Some (errors_New "Invalid Cookie Value")),
     emitted (tick (S n) (world 9000 alice))
       [EvLog format;
        EvLog "invalid Cookie Value";
        EvRedirect
          (generateAuthCodeURL auth
             (CompactSerialize
                (Sign "k-new"
                   (Marshal_oauth2StateJWT
                      (stateClaims auth loggedIn
                         (tick n (world 9000 alice))))))
             loggedIn)
          StatusFound]).
Proof.
  apply (@getRemoteUserName_rejected_cookie Libs Consts
           ReferenceFacts.Libs_laws auth loggedIn (world 9000 alice) cookie
           "k-new" ["k-old"]).
  - reflexivity.
  - reflexivity.
  - reflexivity.
  - vm_compute. reflexivity.
  - reflexivity.
  - discriminate.
Defined.


End FlowFacts.
